(** * bloodhound-autoconfig: the Nmap report parser

    A shallow embedding of [src/bloodhound_autoconfig.py] (classes
    [DomainController] and [NmapParser]) and the properties of its
    host-block parser.

    Text model.  A Python [str] is a sequence of code points; here it is a
    [list ascii], each [ascii] read as a code point in the range 0..255
    (ASCII and the Latin-1 supplement).  On that range [str.lower],
    [str.strip], the regex classes [\d], [\s], [.] and the IGNORECASE flag
    are the functions written below.  Code points above 255 are outside the
    model, and Python treats four of them specially: under IGNORECASE the
    letters [i], [s] and [k], alone or in a class such as [[a-z]], also
    match U+0130, U+0131 (dotted and dotless i), U+017F (long s) and U+212A
    (Kelvin sign), and [\d] matches the decimal digits of every script.
    The properties about what a class captures and about which keywords a
    block needs are worded so that they hold of the program on such text
    as well: they speak of the ASCII characters of a capture, and of
    keyword parts without [i], [s] and [k]. *)

From Stdlib Require Import ZArith NArith Lia Bool List Ascii String DecimalString.
From stdpp Require Import base list strings gmap.

Open Scope Z_scope.

(* ===================================================================== *)
(** ** Characters and strings *)
(* ===================================================================== *)

Module Py.

(** A Python string. *)
Abbreviation str := (list ascii).

(** String literals of the source are written [s{"..."}]. *)
Notation "s{ x }" := (list_ascii_of_string x) (format "s{ x }").

Definition code (c : ascii) : N := N_of_ascii c.

Definition in_range (lo hi : N) (c : ascii) : bool :=
  ((lo <=? code c) && (code c <=? hi))%N.

Definition ch_eqb (a b : ascii) : bool := Ascii.eqb a b.

(** [str.lower] on one code point below 256: A-Z, and the Latin-1 capitals
    U+00C0..U+00DE except the multiplication sign U+00D7. *)
Definition lower_char (c : ascii) : ascii :=
  if in_range 65 90 c || in_range 192 214 c || in_range 216 222 c
  then ascii_of_N (code c + 32) else c.

(** [str.upper] on one ASCII code point (the only place the source calls
    [upper] is on a capture of the class [[a-zA-Z0-9\-]], which below 256
    holds ASCII characters only). *)
Definition upper_char (c : ascii) : ascii :=
  if in_range 97 122 c then ascii_of_N (code c - 32) else c.

Definition lower (s : str) : str := map lower_char s.
Definition upper (s : str) : str := map upper_char s.

(** [str.isspace] / regex [\s] below 256: TAB LF VT FF CR, FS GS RS US,
    SPACE, NEL (U+0085) and NBSP (U+00A0). *)
Definition is_space (c : ascii) : bool :=
  in_range 9 13 c || in_range 28 32 c || (code c =? 133)%N || (code c =? 160)%N.

(** regex [\d] below 256. *)
Definition is_digit (c : ascii) : bool := in_range 48 57 c.

Definition is_alpha (c : ascii) : bool := in_range 65 90 c || in_range 97 122 c.

Fixpoint drop_while (p : ascii -> bool) (s : str) : str :=
  match s with
  | c :: s' => if p c then drop_while p s' else s
  | [] => []
  end.

Fixpoint take_while (p : ascii -> bool) (s : str) : str :=
  match s with
  | c :: s' => if p c then c :: take_while p s' else []
  | [] => []
  end.

(** [s.strip()] *)
Definition strip (s : str) : str :=
  rev (drop_while is_space (rev (drop_while is_space s))).

(** [s.startswith(p)] *)
Fixpoint startswith (p s : str) : bool :=
  match p, s with
  | [], _ => true
  | a :: p', b :: s' => ch_eqb a b && startswith p' s'
  | _ :: _, [] => false
  end.

(** [sub in s] *)
Fixpoint contains (sub s : str) : bool :=
  startswith sub s ||
  match s with
  | [] => false
  | _ :: s' => contains sub s'
  end.

(** [s.find(sub)], with [None] for -1. *)
Fixpoint find (sub s : str) : option nat :=
  if startswith sub s then Some 0%nat
  else match s with
       | [] => None
       | _ :: s' => S <$> find sub s'
       end.

(** [s.split(sep)] for a non-empty [sep], which is also [re.split] of a
    pattern without metacharacters: cut at the leftmost occurrence, go on
    behind it.  [n] bounds the number of cuts; [length s] is enough since
    every cut removes at least one character. *)
Fixpoint split_upto (n : nat) (sep s : str) : list str :=
  match n with
  | O => [s]
  | S n' =>
      match find sep s with
      | None => [s]
      | Some i => take i s :: split_upto n' sep (drop (i + length sep) s)
      end
  end.

Definition split (sep s : str) : list str := split_upto (length s) sep s.

(** [sep.join(parts)] *)
Fixpoint join (sep : str) (parts : list str) : str :=
  match parts with
  | [] => []
  | [p] => p
  | p :: ps => p ++ sep ++ join sep ps
  end.

(** [str(n)] for an int. *)
Definition str_of_int (n : Z) : str :=
  list_ascii_of_string (NilZero.string_of_int (Z.to_int n)).

(** Truthiness of an [Optional[str]]: [None] and [''] are falsy. *)
Definition truthy (o : option str) : bool :=
  match o with
  | Some (_ :: _) => true
  | _ => false
  end.

End Py.

Import Py.

(* ===================================================================== *)
(** ** The fragment of Python's [re] the parser uses *)
(* ===================================================================== *)

(** Every pattern of the source is a concatenation of single characters,
    character classes, greedy [*] / [+] over one character class, at most
    one capturing group, and (once) a leading [^].  The matcher is the
    backtracking one of [re]: leftmost start, greedy repetition, giving
    characters back one at a time when the rest of the pattern fails. *)

Module Re.

Inductive regex : Type :=
| Chr  (p : ascii -> bool)          (* one character of a class *)
| Star (p : ascii -> bool)          (* [class*], greedy *)
| Plus (p : ascii -> bool)          (* [class+], greedy *)
| Cat  (r1 r2 : regex)
| Grp  (r : regex)                  (* capturing group 1 *)
| Bol.                              (* [^] without MULTILINE *)

Infix "⋅" := Cat (at level 41, right associativity).

(** A match: the text behind the match and the text of group 1. *)
Definition result : Type := str * option str.

Definition cont : Type := str -> option str -> option result.

(** Greedy repetition: take a character if the class allows it and try the
    rest; if that fails, stop here instead. *)
Fixpoint star (p : ascii -> bool) (s : str) (k : str -> option result)
  : option result :=
  match s with
  | c :: s' =>
      if p c then
        match star p s' k with
        | Some r => Some r
        | None => k s
        end
      else k s
  | [] => k []
  end.

(** [rmatch n r s g k]: match [r] at the front of [s] and continue with
    [k]; [n] is the length of the whole subject ([Bol] needs it) and [g]
    the text of group 1 so far. *)
Fixpoint rmatch (n : nat) (r : regex) (s : str) (g : option str) (k : cont)
  : option result :=
  match r with
  | Chr p =>
      match s with
      | c :: s' => if p c then k s' g else None
      | [] => None
      end
  | Star p => star p s (fun s' => k s' g)
  | Plus p =>
      match s with
      | c :: s' => if p c then star p s' (fun s'' => k s'' g) else None
      | [] => None
      end
  | Cat r1 r2 => rmatch n r1 s g (fun s1 g1 => rmatch n r2 s1 g1 k)
  | Grp r0 =>
      rmatch n r0 s g (fun s' _ => k s' (Some (take (length s - length s') s)))
  | Bol => if (length s =? n)%nat then k s g else None
  end.

Definition accept : cont := fun s g => Some (s, g).

(** Try every start position from left to right. *)
Fixpoint search_from (n : nat) (r : regex) (s : str) : option result :=
  match rmatch n r s None accept with
  | Some m => Some m
  | None =>
      match s with
      | [] => None
      | _ :: s' => search_from n r s'
      end
  end.

(** [re.search(r, s)] *)
Definition search (r : regex) (s : str) : option result :=
  search_from (length s) r s.

(** [m.group(1)] for a pattern whose group always takes part. *)
Definition group1 (m : result) : str := default [] (snd m).

(** [re.findall(r, s)] for a pattern with one group that cannot match the
    empty string: the group texts of the successive non-overlapping
    matches.  [skip] counts the characters of the last match still to be
    stepped over. *)
Fixpoint findall_from (n : nat) (r : regex) (skip : nat) (s : str) : list str :=
  match skip with
  | S skip' =>
      match s with
      | [] => []
      | _ :: s' => findall_from n r skip' s'
      end
  | O =>
      match rmatch n r s None accept with
      | Some (rest, g) =>
          default [] g ::
          match s with
          | [] => []
          | _ :: s' => findall_from n r (length s - length rest - 1) s'
          end
      | None =>
          match s with
          | [] => []
          | _ :: s' => findall_from n r 0 s'
          end
      end
  end.

Definition findall (r : regex) (s : str) : list str :=
  findall_from (length s) r 0 s.

(** *** Pattern syntax *)

(** A literal character; under IGNORECASE it matches both cases (below
    256: the character and its other ASCII case). *)
Definition lit (ignorecase : bool) (c : ascii) : regex :=
  if ignorecase then Chr (fun x => ch_eqb (lower_char x) (lower_char c))
  else Chr (ch_eqb c).

(** A non-empty literal string. *)
Fixpoint lits (ignorecase : bool) (s : str) : regex :=
  match s with
  | [] => Star (fun _ => false)
  | [c] => lit ignorecase c
  | c :: s' => lit ignorecase c ⋅ lits ignorecase s'
  end.

(** [\d], [\s], [.] (below 256, [\d] is 0-9) *)
Definition digit : ascii -> bool := is_digit.
Definition space : ascii -> bool := is_space.
Definition dot : ascii -> bool := fun c => negb (ch_eqb c "010").

(** [[^...]] over a list of characters. *)
Definition none_of (cs : str) : ascii -> bool :=
  fun c => negb (existsb (ch_eqb c) cs).

(** [[a-zA-Z0-9...]] followed by the listed extra characters; the class
    holds both cases of every letter, so below 256 IGNORECASE does not
    change it. *)
Definition alnum_or (cs : str) : ascii -> bool :=
  fun c => is_alpha c || is_digit c || existsb (ch_eqb c) cs.

End Re.

Import Re.

(* ===================================================================== *)
(** ** Data model *)
(* ===================================================================== *)

(** [class DomainController] *)
Record DomainController : Type := mkDC {
  ip : str;
  hostname : str;
  domain : option str;
  netbios : option str;
  ports : list Z;
  services : list str
}.

(** The attributes of [class NmapParser] that parsing reads or writes. *)
Record NmapParser : Type := mkParser {
  domain_controllers : list DomainController;
  domain_names : gset str;
  netbios_domains : gset str;
  total_hosts : Z;
  parse_errors : list str
}.

(** [NmapParser.__init__] *)
Definition init : NmapParser :=
  {| domain_controllers := []; domain_names := ∅; netbios_domains := ∅;
     total_hosts := 0; parse_errors := [] |}.

Definition set_domain_controllers (v : list DomainController) (self : NmapParser) :=
  {| domain_controllers := v; domain_names := domain_names self;
     netbios_domains := netbios_domains self; total_hosts := total_hosts self;
     parse_errors := parse_errors self |}.

Definition set_domain_names (v : gset str) (self : NmapParser) :=
  {| domain_controllers := domain_controllers self; domain_names := v;
     netbios_domains := netbios_domains self; total_hosts := total_hosts self;
     parse_errors := parse_errors self |}.

Definition set_netbios_domains (v : gset str) (self : NmapParser) :=
  {| domain_controllers := domain_controllers self; domain_names := domain_names self;
     netbios_domains := v; total_hosts := total_hosts self;
     parse_errors := parse_errors self |}.

Definition set_total_hosts (v : Z) (self : NmapParser) :=
  {| domain_controllers := domain_controllers self; domain_names := domain_names self;
     netbios_domains := netbios_domains self; total_hosts := v;
     parse_errors := parse_errors self |}.

Definition set_parse_errors (v : list str) (self : NmapParser) :=
  {| domain_controllers := domain_controllers self; domain_names := domain_names self;
     netbios_domains := netbios_domains self; total_hosts := total_hosts self;
     parse_errors := v |}.

(** What a call does: it returns a value or raises an exception, of which
    the parser only ever looks at [str(e)]. *)
Inductive outcome (A : Type) : Type :=
| Returns (a : A)
| Raises (msg : str).
Arguments Returns {A} a.
Arguments Raises {A} msg.

(** [NmapParser.AD_PORTS]; a dict is iterated in insertion order. *)
Definition AD_PORTS : list (Z * str) :=
  [ (88, s{"Kerberos"});
    (389, s{"LDAP"});
    (636, s{"LDAPS"});
    (445, s{"SMB"});
    (3268, s{"Global Catalog"});
    (3269, s{"Global Catalog SSL"});
    (53, s{"DNS"});
    (135, s{"RPC"}) ].

Definition nl : str := ["010"%char].

(* ===================================================================== *)
(** ** The patterns of the source *)
(* ===================================================================== *)

Module Pat.

(** [r'(\d+\.\d+\.\d+\.\d+)'] *)
Definition ip : regex :=
  Grp (Plus digit ⋅ lit false "." ⋅ Plus digit ⋅ lit false "." ⋅
       Plus digit ⋅ lit false "." ⋅ Plus digit).

(** [r'^([^\(]+)'] *)
Definition hostname : regex := Bol ⋅ Grp (Plus (none_of s{"("})).

(** [r'Domain:\s*([a-zA-Z0-9\-\.]+)'], IGNORECASE *)
Definition domain : regex :=
  lits true s{"Domain:"} ⋅ Star space ⋅ Grp (Plus (alnum_or s{"-."})).

(** [r'defaultNamingContext[:\s]+([^\n,]+)'], IGNORECASE *)
Definition naming_context : regex :=
  lits true s{"defaultNamingContext"} ⋅
  Plus (fun c => ch_eqb c ":" || space c) ⋅
  Grp (Plus (none_of (nl ++ s{","}))).

(** [r'DC=([^,]+)'], IGNORECASE *)
Definition dc_part : regex := lits true s{"DC="} ⋅ Grp (Plus (none_of s{","})).

(** [r'dns_computer_name:\s*([^\n]+)'], IGNORECASE *)
Definition dns_hostname : regex :=
  lits true s{"dns_computer_name:"} ⋅ Star space ⋅ Grp (Plus (none_of nl)).

(** [r'forest[:\s]+([a-zA-Z0-9\-\.]+)'], IGNORECASE *)
Definition forest : regex :=
  lits true s{"forest"} ⋅
  Plus (fun c => ch_eqb c ":" || space c) ⋅
  Grp (Plus (alnum_or s{"-."})).

(** [r'NetBIOS.*Domain:\s*([a-zA-Z0-9\-]+)'], IGNORECASE *)
Definition netbios : regex :=
  lits true s{"NetBIOS"} ⋅ Star dot ⋅ lits true s{"Domain:"} ⋅ Star space ⋅
  Grp (Plus (alnum_or s{"-"})).

(** [r'NetBIOS.*Computer.*:\s*([a-zA-Z0-9\-]+)'], IGNORECASE *)
Definition netbios_computer : regex :=
  lits true s{"NetBIOS"} ⋅ Star dot ⋅ lits true s{"Computer"} ⋅ Star dot ⋅
  lit true ":" ⋅ Star space ⋅ Grp (Plus (alnum_or s{"-"})).

End Pat.

(* ===================================================================== *)
(** ** [NmapParser]: the methods *)
(* ===================================================================== *)

(** The [for port, service in self.AD_PORTS.items()] loop of
    [_check_domain_controller], on the two lists it appends to. *)
Fixpoint scan_ports (block_lower : str) (table : list (Z * str))
    (found_ports : list Z) (found_services : list str) : list Z * list str :=
  match table with
  | [] => (found_ports, found_services)
  | (port, service) :: table' =>
      let port_pattern := str_of_int port ++ s{"/tcp"} in
      if contains port_pattern block_lower
      then scan_ports block_lower table' (found_ports ++ [port]) (found_services ++ [service])
      else scan_ports block_lower table' found_ports found_services
  end.

(** [_check_domain_controller] *)
Definition _check_domain_controller (block : str) : bool * list Z * list str :=
  let block_lower := lower block in
  let '(found_ports, found_services) := scan_ports block_lower AD_PORTS [] [] in
  let has_kerberos := bool_decide (88 ∈ found_ports) in
  let has_ldap := bool_decide (389 ∈ found_ports) || bool_decide (636 ∈ found_ports) in
  let is_dc := has_kerberos && has_ldap in
  (is_dc, found_ports, found_services).

(** [_extract_domain], one definition per "Method" of the source; each
    gives the value its [return] statement returns, or [None] when the
    method falls through to the next one. *)

(** Method 1: Look for explicit Domain field *)
Definition domain_method1 (block : str) : option str :=
  match search Pat.domain block with
  | Some domain_match => Some (strip (group1 domain_match))
  | None => None
  end.

(** Method 2: Extract from LDAP defaultNamingContext *)
Definition domain_method2 (block : str) : option str :=
  match search Pat.naming_context block with
  | Some naming_context =>
      let dn := strip (group1 naming_context) in
      let dc_parts := findall Pat.dc_part dn in
      match dc_parts with
      | _ :: _ => Some (join s{"."} dc_parts)
      | [] => None
      end
  | None => None
  end.

(** Method 3: Extract from DNS hostname *)
Definition domain_method3 (block : str) : option str :=
  match search Pat.dns_hostname block with
  | Some dns_hostname =>
      let fqdn := strip (group1 dns_hostname) in
      if contains s{"."} fqdn
      then Some (join s{"."} (tail (split s{"."} fqdn)))
      else None
  | None => None
  end.

(** Method 4: Extract from forest name *)
Definition domain_method4 (block : str) : option str :=
  match search Pat.forest block with
  | Some forest_match => Some (strip (group1 forest_match))
  | None => None
  end.

Definition _extract_domain (block : str) : option str :=
  match domain_method1 block with
  | Some d => Some d
  | None =>
  match domain_method2 block with
  | Some d => Some d
  | None =>
  match domain_method3 block with
  | Some d => Some d
  | None => domain_method4 block
  end end end.

(** [_extract_netbios] *)
Definition _extract_netbios (block : str) : option str :=
  match search Pat.netbios block with
  | Some netbios_match => Some (upper (strip (group1 netbios_match)))
  | None =>
      match search Pat.netbios_computer block with
      | Some netbios_computer => Some (upper (strip (group1 netbios_computer)))
      | None => None
      end
  end.

(** [lines[0]] of [host_block.split('\n')] *)
Definition first_line (host_block : str) : str :=
  hd [] (split nl host_block).

(** [self.domain_names.add(domain)] under [if domain:] (and the same for
    [netbios]). *)
Definition add_if_truthy (o : option str) (names : gset str) : gset str :=
  match o with
  | Some (c :: d) => {[ c :: d ]} ∪ names
  | _ => names
  end.

(** [hostname_match.group(1).strip() if hostname_match else ip], where
    [ip] is a string. *)
Definition hostname_of (first_line ip : str) : str :=
  match search Pat.hostname first_line with
  | Some hostname_match => strip (group1 hostname_match)
  | None => ip
  end.

(** [_parse_host].  No statement of it raises.  [hostname] is only used
    behind the [if not ip] test, so it is computed there. *)
Definition _parse_host (host_block : str) (self : NmapParser)
  : NmapParser * outcome (option DomainController) :=
  let first_line := first_line host_block in
  let ip_match := search Pat.ip first_line in
  let ip := group1 <$> ip_match in
  match ip with
  | None | Some [] => (self, Returns None)
  | Some ip =>
      let hostname := hostname_of first_line ip in
      let '(is_dc, ports, services) := _check_domain_controller host_block in
      if negb is_dc then (self, Returns None) else
      let domain := _extract_domain host_block in
      let netbios := _extract_netbios host_block in
      let dc := mkDC ip hostname domain netbios ports services in
      let self := set_domain_names (add_if_truthy domain (domain_names self)) self in
      let self := set_netbios_domains (add_if_truthy netbios (netbios_domains self)) self in
      (self, Returns (Some dc))
  end.

(** The [for idx, host_block in enumerate(hosts[1:], 1)] loop of [parse]
    with its [try]/[except Exception]; [parse_host] is the method the
    [try] calls. *)
Fixpoint parse_loop
    (parse_host : str -> NmapParser -> NmapParser * outcome (option DomainController))
    (idx : Z) (blocks : list str) (self : NmapParser) : NmapParser :=
  match blocks with
  | [] => self
  | host_block :: blocks' =>
      let self :=
        match parse_host host_block self with
        | (self, Returns (Some dc)) =>
            set_domain_controllers (domain_controllers self ++ [dc]) self
        | (self, Returns None) => self
        | (self, Raises e) =>
            set_parse_errors
              (parse_errors self ++ [s{"Host "} ++ str_of_int idx ++ s{": "} ++ e]) self
        end in
      parse_loop parse_host (idx + 1) blocks' self
  end.

Definition marker : str := s{"Nmap scan report for "}.

(** [parse], given what reading the file gave; the progress messages it
    prints are left out. *)
Definition parse_with
    (parse_host : str -> NmapParser -> NmapParser * outcome (option DomainController))
    (read : outcome str) (self : NmapParser) : NmapParser * bool :=
  match read with
  | Raises _ => (self, false)
  | Returns content =>
      let hosts := split marker content in
      let self := set_total_hosts (Z.of_nat (length hosts) - 1) self in
      let self := parse_loop parse_host 1 (tail hosts) self in
      (self, true)
  end.

Definition parse (read : outcome str) (self : NmapParser) : NmapParser * bool :=
  parse_with _parse_host read self.

(* ===================================================================== *)
(** ** [BloodHoundCommandGenerator] *)
(* ===================================================================== *)

(** A dict with string keys, as the list of its items in insertion order:
    [k in d], [d[k]] and [d[k] = v] (a new key goes to the end, an
    existing one keeps its place). *)
Section Dict.

Context {V : Type}.

Fixpoint dict_get (k : str) (d : list (str * V)) : option V :=
  match d with
  | [] => None
  | (k', v) :: d' => if bool_decide (k' = k) then Some v else dict_get k d'
  end.

Definition dict_mem (k : str) (d : list (str * V)) : bool :=
  match dict_get k d with
  | Some _ => true
  | None => false
  end.

Fixpoint dict_set (k : str) (v : V) (d : list (str * V)) : list (str * V) :=
  match d with
  | [] => [(k, v)]
  | (k', v') :: d' =>
      if bool_decide (k' = k) then (k', v) :: d' else (k', v') :: dict_set k v d'
  end.

End Dict.

(** One entry of the list [generate_all_commands] returns; [dc.to_dict()]
    holds the six attributes of the record. *)
Record Command : Type := mkCommand {
  cmd_dc : DomainController;
  cmd_command : str;
  cmd_domain : str;
  cmd_netbios : option str
}.

Definition backslash : str := s{"\"}.

(** [generate_command] *)
Definition generate_command (dc : DomainController) (username password domain : str)
    (use_domain_prefix : bool) (netbios_domain : option str) : str :=
  let dc_hostname :=
    if negb (bool_decide (hostname dc = ip dc)) then hostname dc else ip dc in
  let username_str :=
    if use_domain_prefix && truthy netbios_domain
    then s{"'"} ++ default [] netbios_domain ++ backslash ++ username ++ s{"'"}
    else username in
  s{"bloodhound-python "} ++ backslash ++ nl ++
  s{"  -u "} ++ username_str ++ s{" "} ++ backslash ++ nl ++
  s{"  -p '"} ++ password ++ s{"' "} ++ backslash ++ nl ++
  s{"  -d "} ++ domain ++ s{" "} ++ backslash ++ nl ++
  s{"  -dc "} ++ dc_hostname ++ s{" "} ++ backslash ++ nl ++
  s{"  -c All "} ++ backslash ++ nl ++
  s{"  --zip"}.

(** [dc.domain or "UNKNOWN"] *)
Definition domain_or_unknown (dc : DomainController) : str :=
  if truthy (domain dc) then default [] (domain dc) else s{"UNKNOWN"}.

(** The body of the loop "Group DCs by domain". *)
Definition group_step (dc_by_domain : list (str * list DomainController))
    (dc : DomainController) : list (str * list DomainController) :=
  let domain := domain_or_unknown dc in
  let dc_by_domain :=
    if negb (dict_mem domain dc_by_domain)
    then dict_set domain [] dc_by_domain
    else dc_by_domain in
  dict_set domain (default [] (dict_get domain dc_by_domain) ++ [dc]) dc_by_domain.

(** The [for dc in dcs: if dc.netbios: ...; break] search. *)
Fixpoint first_netbios (dcs : list DomainController) : option str :=
  match dcs with
  | [] => None
  | dc :: dcs' => if truthy (netbios dc) then netbios dc else first_netbios dcs'
  end.

Section Generator.

(** The order in which Python iterates over a set is not fixed by the
    language; [set_order] is that order, so that [list(s)[0]] is the head
    of [set_order s]. *)
Variable set_order : gset str -> list str.

(** The NetBIOS name used for one domain's commands. *)
Definition group_netbios (parser : NmapParser) (dcs : list DomainController)
  : option str :=
  let netbios := first_netbios dcs in
  if negb (truthy netbios) && negb (bool_decide (netbios_domains parser = ∅))
  then head (set_order (netbios_domains parser))
  else netbios.

(** The commands of one [domain, dcs] item. *)
Definition group_commands (parser : NmapParser) (username password : str)
    (use_domain_prefix : bool) (item : str * list DomainController) : list Command :=
  let '(domain, dcs) := item in
  let netbios := group_netbios parser dcs in
  map (fun dc =>
         let cmd := generate_command dc username password domain
                      use_domain_prefix netbios in
         mkCommand dc cmd domain netbios)
      dcs.

(** [generate_all_commands] *)
Definition generate_all_commands (parser : NmapParser) (username password : str)
    (use_domain_prefix : bool) : list Command :=
  let dc_by_domain := fold_left group_step (domain_controllers parser) [] in
  concat (map (group_commands parser username password use_domain_prefix) dc_by_domain).

End Generator.

(* ===================================================================== *)
(** ** Notions the properties are stated with *)
(* ===================================================================== *)

(** [AD_PORTS[port]] *)
Definition service_name (port : Z) : option str :=
  snd <$> List.find (fun e => fst e =? port) AD_PORTS.

(** Whether the port's pattern [f'{port}/tcp'] occurs in the lowercased block. *)
Definition port_seen (block : str) (port : Z) : bool :=
  contains (str_of_int port ++ s{"/tcp"}) (lower block).

(** A string no proper non-empty suffix of which is also a prefix of it:
    two occurrences of such a string never overlap. *)
Definition border_free (m : str) : bool :=
  forallb (fun k => negb (startswith (drop k m) m)) (seq 1 (length m - 1)).

(** The text a pattern can consume, and what it does to group 1: the
    declarative reading of [regex], against which the matcher is sound. *)
Fixpoint denotes (r : regex) (t : str) (g g' : option str) : Prop :=
  match r with
  | Chr p => (exists c, t = [c] /\ p c = true) /\ g' = g
  | Star p => forallb p t = true /\ g' = g
  | Plus p => t <> [] /\ forallb p t = true /\ g' = g
  | Cat r1 r2 =>
      exists t1 t2 g1, t = t1 ++ t2 /\ denotes r1 t1 g g1 /\ denotes r2 t2 g1 g'
  | Grp r0 => (exists g0, denotes r0 t g g0) /\ g' = Some t
  | Bol => t = [] /\ g' = g
  end.

(** A pattern whose last item is a group over [class+], as every pattern
    of [_extract_domain] and [_extract_netbios] is. *)
Fixpoint ends_in_group (p : ascii -> bool) (r : regex) : Prop :=
  match r with
  | Cat _ r2 => ends_in_group p r2
  | Grp (Plus q) => q = p
  | _ => False
  end.

(** A pattern without [^]. *)
Fixpoint bol_free (r : regex) : Prop :=
  match r with
  | Cat r1 r2 => bol_free r1 /\ bol_free r2
  | Grp r0 => bol_free r0
  | Bol => False
  | _ => True
  end.

(** A code point of the ASCII range. *)
Definition is_ascii (c : ascii) : bool := in_range 0 127 c.

(** The ASCII characters a NetBIOS name can hold once upper-cased. *)
Definition netbios_char (c : ascii) : bool :=
  in_range 65 90 c || is_digit c || ch_eqb c "-".

(** The record [_parse_host] returns for a block, if it returns one. *)
Definition record_of (host_block : str) : option DomainController :=
  match snd (_parse_host host_block init) with
  | Returns (Some dc) => Some dc
  | _ => None
  end.

(** The non-empty values an optional attribute takes over some records. *)
Definition names_of (field : DomainController -> option str)
    (dcs : list DomainController) : list str :=
  omap (fun dc => if truthy (field dc) then field dc else None) dcs.

(** The host blocks of a report: [hosts[1:]]. *)
Definition blocks_of (content : str) : list str := tail (split marker content).

(** Whether a record belongs to the domain [k] of the grouping. *)
Definition same_domain (k : str) (dc : DomainController) : bool :=
  bool_decide (domain_or_unknown dc = k).

(** Every record of a group has the key of the group. *)
Definition keyed (m : list (str * list DomainController)) : Prop :=
  forall k l dc, (k, l) ∈ m -> dc ∈ l -> domain_or_unknown dc = k.

(** Appending a record to the group of key [k], or opening that group
    behind the others: what [group_step] comes to. *)
Fixpoint group_add (k : str) (dc : DomainController)
    (m : list (str * list DomainController)) : list (str * list DomainController) :=
  match m with
  | [] => [(k, [dc])]
  | (k', l) :: m' =>
      if bool_decide (k' = k) then (k', l ++ [dc]) :: m'
      else (k', l) :: group_add k dc m'
  end.

(* ===================================================================== *)
(** ** Sample inputs *)
(* ===================================================================== *)

(** A host block as Nmap prints it for a domain controller. *)
Definition sample_dc_block : str :=
  s{"dc01.corp.local (10.0.0.5)"} ++ nl ++
  s{"88/tcp  open  kerberos-sec"} ++ nl ++
  s{"389/TCP open  ldap"} ++ nl.

(** A block whose header line holds no address. *)
Definition sample_no_ip_block : str :=
  s{"gateway [host down]"} ++ nl ++ s{"88/tcp open"} ++ nl ++ s{"389/tcp open"} ++ nl.

(** A per-host step that raises [msg] on the block [bad] and is
    [_parse_host] on every other block: what the [except] clause of [parse]
    is there for. *)
Definition raising_on (bad msg : str)
  : str -> NmapParser -> NmapParser * outcome (option DomainController) :=
  fun host_block self =>
    if bool_decide (host_block = bad) then (self, Raises msg)
    else _parse_host host_block self.

(** A host with Kerberos and Remote Desktop (3389) but no LDAP service. *)
Definition sample_rdp_block : str :=
  s{"10.0.0.7"} ++ nl ++
  s{"88/tcp   open  kerberos-sec"} ++ nl ++
  s{"3389/tcp open  ms-wbt-server"} ++ nl.

(** The LDAP root DSE line of the specification's example. *)
Definition sample_naming_context_block : str :=
  s{"defaultNamingContext: DC=corp,DC=example,DC=local"}.

(** A block with both a [Domain:] label and a naming context. *)
Definition sample_two_domains_block : str :=
  s{"|   Domain: corp.local"} ++ nl ++
  s{"|   defaultNamingContext: DC=other,DC=example"} ++ nl.

Definition sample_dns_name_block : str :=
  s{"|   DNS_Computer_Name: dc01.corp.local"} ++ nl.

(** Three records, two of one domain and one without a domain, and a
    parser that holds them. *)
Definition sample_dc1 : DomainController :=
  mkDC s{"10.0.0.5"} s{"dc01.corp.local"} (Some s{"corp.local"}) None
       [88; 389] [s{"Kerberos"}; s{"LDAP"}].

Definition sample_dc2 : DomainController :=
  mkDC s{"10.0.1.5"} s{"10.0.1.5"} None (Some s{"LAB"})
       [88; 636] [s{"Kerberos"}; s{"LDAPS"}].

Definition sample_dc3 : DomainController :=
  mkDC s{"10.0.0.6"} s{"dc02.corp.local"} (Some s{"corp.local"}) (Some s{"CORP"})
       [88; 389] [s{"Kerberos"}; s{"LDAP"}].

Definition sample_parser : NmapParser :=
  {| domain_controllers := [sample_dc1; sample_dc2; sample_dc3];
     domain_names := {[ s{"corp.local"} ]};
     netbios_domains := {[ s{"LAB"}; s{"CORP"} ]};
     total_hosts := 3;
     parse_errors := [] |}.

(** The commands for [sample_dc1] and [sample_dc3] with the user [bob],
    the password [pw] and the domain prefix asked for. *)
Definition sample_command1 : Command :=
  mkCommand sample_dc1
    (generate_command sample_dc1 s{"bob"} s{"pw"} s{"corp.local"} true (Some s{"CORP"}))
    s{"corp.local"} (Some s{"CORP"}).

Definition sample_command3 : Command :=
  mkCommand sample_dc3
    (generate_command sample_dc3 s{"bob"} s{"pw"} s{"corp.local"} true (Some s{"CORP"}))
    s{"corp.local"} (Some s{"CORP"}).

(** A report with one host that names its domain and its NetBIOS domain,
    the record of that host and its command. *)
Definition sample_named_block : str :=
  s{"dc01.corp.local (10.0.0.5)"} ++ nl ++
  s{"88/tcp  open  kerberos-sec"} ++ nl ++
  s{"389/tcp open  ldap (Domain: corp.local, Site: Default-First-Site-Name)"} ++ nl ++
  s{"|   NetBIOS Domain: corp"} ++ nl.

Definition sample_report : str :=
  s{"Starting Nmap 7.94"} ++ nl ++ marker ++ sample_named_block.

Definition sample_named_record : DomainController :=
  mkDC s{"10.0.0.5"} s{"dc01.corp.local"} (Some s{"corp.local"}) (Some s{"CORP"})
       [88; 389] [s{"Kerberos"}; s{"LDAP"}].

Definition sample_named_command : Command :=
  mkCommand sample_named_record
    (generate_command sample_named_record s{"bob"} s{"pw"} s{"corp.local"} true
       (Some s{"CORP"}))
    s{"corp.local"} (Some s{"CORP"}).

(** A header line with only a blank before the parenthesis. *)
Definition sample_blank_name_block : str :=
  s{" (10.0.0.5)"} ++ nl ++ s{"88/tcp  open  kerberos-sec"} ++ nl ++
  s{"389/tcp open  ldap"} ++ nl.

(** A block whose only domain field is a forest label. *)
Definition sample_forest_block : str := s{"|   Forest: lab.local"} ++ nl.


(* ===================================================================== *)
(** ** Examples *)
(* ===================================================================== *)

Example lower_ex : lower s{"88/TCP Open"} = s{"88/tcp open"}.
Proof. reflexivity. Qed.

Example split_ex :
  split s{"."} s{"dc01.corp.local"} = [s{"dc01"}; s{"corp"}; s{"local"}].
Proof. reflexivity. Qed.

Example str_of_int_ex : str_of_int 3268 = s{"3268"}.
Proof. reflexivity. Qed.


(* ===================================================================== *)
(** ** Strings: occurrences, splitting and joining *)
(* ===================================================================== *)

Section Strings.

Implicit Types (s t p sep sub : str).

Lemma startswith_prefix p s : startswith p s = true <-> p `prefix_of` s.
Proof.
  revert s. induction p as [|a p IH]; intros s; simpl.
  - split; [intros _; apply prefix_nil | done].
  - destruct s as [|b s].
    + split; [done | intros H; by apply prefix_nil_not in H].
    + rewrite andb_true_iff, IH. unfold ch_eqb. rewrite Ascii.eqb_eq. split.
      * intros [-> H]. by apply prefix_cons.
      * intros H. split; [by apply prefix_cons_inv_1 in H | by apply prefix_cons_inv_2 in H].
Qed.

Lemma startswith_app p s : startswith p (p ++ s) = true.
Proof. apply startswith_prefix. by apply prefix_app_r. Qed.

Lemma find_eq sub s :
  find sub s =
  if startswith sub s then Some 0%nat
  else match s with [] => None | _ :: s' => S <$> find sub s' end.
Proof. by destruct s. Qed.

Lemma find_None sub s : find sub s = None <-> contains sub s = false.
Proof.
  induction s as [|c s IH]; simpl.
  - destruct (startswith sub []); simpl; split; congruence.
  - destruct (startswith sub (c :: s)); simpl; [split; congruence|].
    rewrite <- IH. destruct (find sub s); simpl; split; congruence.
Qed.

Lemma find_Some sub s i :
  find sub s = Some i -> (i <= length s)%nat /\ exists t, drop i s = sub ++ t.
Proof.
  revert i. induction s as [|c s IH]; intros i; simpl.
  - destruct (startswith sub []) eqn:E; [|done].
    intros [= <-]. apply startswith_prefix in E. destruct E as [t ->].
    split; [lia | by exists t].
  - destruct (startswith sub (c :: s)) eqn:E.
    + intros [= <-]. apply startswith_prefix in E. destruct E as [t ->].
      split; [lia | by exists t].
    + destruct (find sub s) as [j|] eqn:F; simpl; [|done].
      intros [= <-]. simpl. destruct (IH j eq_refl) as [? ?]. split; [lia | done].
Qed.

Lemma find_Some_length sub s i :
  find sub s = Some i -> (i + length sub <= length s)%nat.
Proof.
  intros H. apply find_Some in H as [Hi [t H]].
  apply (f_equal length) in H. rewrite length_drop, length_app in H. lia.
Qed.

Lemma find_cut sub s i :
  find sub s = Some i -> s = take i s ++ sub ++ drop (i + length sub) s.
Proof.
  intros H. apply find_Some in H as [_ [t H]].
  rewrite <- (take_drop i s) at 1. f_equal.
  rewrite <- drop_drop, H. by rewrite drop_app_length.
Qed.

Lemma split_upto_cons n sep s : exists b bs, split_upto n sep s = b :: bs.
Proof. destruct n; simpl; [|destruct (find sep s)]; eauto. Qed.

(** Joining what [split] cut gives the text back, character for
    character. *)
Lemma join_split_upto n sep s : join sep (split_upto n sep s) = s.
Proof.
  revert s. induction n as [|n IH]; intros s; simpl; [done|].
  destruct (find sep s) as [i|] eqn:F; [|done].
  destruct (split_upto_cons n sep (drop (i + length sep) s)) as (b & bs & E).
  specialize (IH (drop (i + length sep) s)). rewrite E in *.
  change (join sep (take i s :: b :: bs)) with (take i s ++ sep ++ join sep (b :: bs)).
  rewrite IH. symmetry. by apply find_cut.
Qed.

Lemma join_split sep s : join sep (split sep s) = s.
Proof. apply join_split_upto. Qed.

Lemma split_upto_none n sep s : contains sep s = false -> split_upto n sep s = [s].
Proof.
  intros H. apply find_None in H. destruct n; simpl; [done|]. by rewrite H.
Qed.

(** Any bound of at least [length s] gives the same cuts. *)
Lemma split_upto_enough n m sep s :
  sep <> [] -> (length s <= n)%nat -> (length s <= m)%nat ->
  split_upto n sep s = split_upto m sep s.
Proof.
  intros Hsep. revert m s. induction n as [|n IH]; intros m s Hn Hm.
  - destruct s; [|simpl in Hn; lia].
    destruct m; simpl; [done|]. destruct sep; [done|]. done.
  - destruct m as [|m].
    + destruct s; [|simpl in Hm; lia]. simpl. destruct sep; [done|]. done.
    + simpl. destruct (find sep s) as [i|] eqn:F; [|done].
      f_equal. pose proof (find_Some_length _ _ _ F).
      assert (0 < length sep)%nat by (destruct sep; [done | simpl; lia]).
      apply IH; rewrite length_drop; lia.
Qed.

Lemma split_first sep s i :
  sep <> [] -> find sep s = Some i ->
  split sep s = take i s :: split sep (drop (i + length sep) s).
Proof.
  intros Hsep F. unfold split.
  pose proof (find_Some_length _ _ _ F).
  assert (0 < length sep)%nat by (destruct sep; [done | simpl; lia]).
  destruct (length s) as [|n] eqn:L; [lia|]. simpl. rewrite F. f_equal.
  apply split_upto_enough; [done| |done]. rewrite length_drop. lia.
Qed.

(** The leftmost occurrence of a border-free [m] in [pre ++ m ++ rest] is
    the one behind [pre], when [pre] holds none. *)
Lemma find_app_border_free m pre rest :
  border_free m = true -> contains m pre = false ->
  find m (pre ++ m ++ rest) = Some (length pre).
Proof.
  intros Hb. induction pre as [|c pre IH]; intros Hc.
  - rewrite find_eq. change ([] ++ m ++ rest) with (m ++ rest).
    by rewrite startswith_app.
  - simpl in Hc. apply orb_false_iff in Hc as [Hp Hc].
    rewrite find_eq. change ((c :: pre) ++ m ++ rest) with (c :: pre ++ m ++ rest).
    cbv beta iota. rewrite (IH Hc).
    destruct (startswith m (c :: pre ++ m ++ rest)) eqn:E; [exfalso|done].
    apply startswith_prefix in E.
    assert (Hpp : (c :: pre) `prefix_of` (c :: pre ++ m ++ rest))
      by (by apply (prefix_app_r (c :: pre) (c :: pre))).
    destruct (prefix_weak_total _ _ _ E Hpp) as [H1|H1].
    { apply startswith_prefix in H1. congruence. }
    destruct H1 as [u Hu].
    assert (Hlen : length m = (S (length pre) + length u)%nat)
      by (rewrite Hu; simpl; rewrite length_app; lia).
    destruct u as [|x u].
    { rewrite app_nil_r in Hu. subst m.
      rewrite (proj2 (startswith_prefix _ _)) in Hp; [done|]. done. }
    destruct E as [t Ht].
    rewrite Hu in Ht at 2.
    change (c :: pre ++ m ++ rest) with ((c :: pre) ++ m ++ rest) in Ht.
    rewrite <- app_assoc in Ht. apply app_inv_head in Ht.
    assert (Hum : (x :: u) `prefix_of` m).
    { assert (H2 : (x :: u) `prefix_of` (m ++ rest)) by (rewrite Ht; by apply prefix_app_r).
      assert (H3 : m `prefix_of` (m ++ rest)) by (by apply prefix_app_r).
      destruct (prefix_weak_total _ _ _ H2 H3) as [H4|H4]; [done|].
      apply prefix_length in H4. simpl in *. lia. }
    assert (Hd : drop (S (length pre)) m = x :: u).
    { rewrite Hu. apply (drop_app_length (c :: pre)). }
    unfold border_free in Hb. rewrite forallb_forall in Hb.
    specialize (Hb (S (length pre))). rewrite Hd in Hb.
    rewrite (proj2 (startswith_prefix _ _) Hum) in Hb. simpl in Hb.
    assert (Hin : In (S (length pre)) (seq 1 (length m - 1))).
    { apply in_seq. simpl in Hlen. lia. }
    by specialize (Hb Hin).
Qed.

Lemma contains_eq sub s :
  contains sub s =
  (startswith sub s || match s with [] => false | _ :: s' => contains sub s' end).
Proof. by destruct s. Qed.

(** [sub in s] says that [s] is some text, then [sub], then some text. *)
Lemma contains_spec sub s :
  contains sub s = true <-> exists pre post, s = pre ++ sub ++ post.
Proof.
  split.
  - induction s as [|c s IH]; rewrite contains_eq; intros H;
      apply orb_true_iff in H as [H|H]; try done.
    + apply startswith_prefix in H as [t ->]. by exists [], t.
    + apply startswith_prefix in H as [t ->]. by exists [], t.
    + destruct (IH H) as (pre & post & ->). by exists (c :: pre), post.
  - intros (pre & post & ->). induction pre as [|c pre IH]; rewrite contains_eq.
    + change ([] ++ sub ++ post) with (sub ++ post). by rewrite startswith_app.
    + change ((c :: pre) ++ sub ++ post) with (c :: pre ++ sub ++ post).
      cbv beta iota. rewrite IH. apply orb_true_r.
Qed.

Lemma contains_suffix a b s : contains (a ++ b) s = true -> contains b s = true.
Proof.
  rewrite !contains_spec. intros (pre & post & ->).
  exists (pre ++ a), post. by rewrite <- !app_assoc.
Qed.

End Strings.

(* ===================================================================== *)
(** ** The matcher *)
(* ===================================================================== *)

Section Matcher.

Implicit Types (s t : str) (p : ascii -> bool) (r : regex) (g : option str).

Lemma star_sound p s k x :
  star p s k = Some x ->
  exists t s', s = t ++ s' /\ forallb p t = true /\ k s' = Some x.
Proof.
  induction s as [|c s IH]; simpl.
  - intros H. by exists [], [].
  - destruct (p c) eqn:Hc.
    + destruct (star p s k) as [y|] eqn:E.
      * intros [= <-]. destruct (IH eq_refl) as (t & s' & -> & Ht & Hk).
        exists (c :: t), s'. simpl. by rewrite Hc, Ht.
      * intros H. by exists [], (c :: s).
    + intros H. by exists [], (c :: s).
Qed.

(** Soundness: whatever the matcher accepts is a text the pattern denotes,
    followed by a rest its continuation accepts. *)
Lemma rmatch_sound n r : forall s g k x,
  rmatch n r s g k = Some x ->
  exists t s' g', s = t ++ s' /\ denotes r t g g' /\ k s' g' = Some x.
Proof.
  induction r as [p|p|p|r1 IH1 r2 IH2|r0 IH0|]; intros s g k x; simpl.
  - destruct s as [|c s]; [done|]. destruct (p c) eqn:Hc; [|done].
    intros H. exists [c], s, g. eauto 10.
  - intros H. apply star_sound in H as (t & s' & -> & Ht & Hk).
    exists t, s', g. eauto.
  - destruct s as [|c s]; [done|]. destruct (p c) eqn:Hc; [|done].
    intros H. apply star_sound in H as (t & s' & -> & Ht & Hk).
    exists (c :: t), s', g. simpl. rewrite Hc, Ht. eauto.
  - intros H. apply IH1 in H as (t1 & s1 & g1 & -> & D1 & H).
    apply IH2 in H as (t2 & s2 & g2 & -> & D2 & H).
    exists (t1 ++ t2), s2, g2. rewrite <- app_assoc. eauto 10.
  - intros H. apply IH0 in H as (t & s' & g0 & -> & D & H).
    rewrite length_app, Nat.add_sub, take_app_length in H.
    exists t, s', (Some t). eauto.
  - destruct (length s =? n)%nat; [|done]. intros H. exists [], s, g. eauto.
Qed.

Lemma search_from_sound n r s m :
  search_from n r s = Some m ->
  exists pre t, s = pre ++ t ++ fst m /\ denotes r t None (snd m).
Proof.
  induction s as [|c s IH]; simpl.
  - destruct (rmatch n r [] None accept) eqn:E; [|done]. intros [= <-].
    apply rmatch_sound in E as (t & s' & g' & -> & D & [= <-]). by exists [], t.
  - destruct (rmatch n r (c :: s) None accept) eqn:E.
    + intros [= <-].
      apply rmatch_sound in E as (t & s' & g' & -> & D & [= <-]). by exists [], t.
    + intros H. destruct (IH H) as (pre & t & -> & D). by exists (c :: pre), t.
Qed.

Lemma search_sound r s m :
  search r s = Some m ->
  exists pre t, s = pre ++ t ++ fst m /\ denotes r t None (snd m).
Proof. apply search_from_sound. Qed.

(** Greedy repetition before a continuation that cannot fail takes the
    longest run. *)
Lemma star_greedy p s k :
  (forall s', k s' <> None) -> star p s k = k (drop_while p s).
Proof.
  intros Hk. induction s as [|c s IH]; simpl; [done|].
  destruct (p c); [|done]. rewrite IH.
  destruct (k (drop_while p s)) eqn:E; [done|]. by apply Hk in E.
Qed.

Lemma drop_while_length p s : (length (drop_while p s) <= length s)%nat.
Proof. induction s as [|c s IH]; simpl; [lia|]. destruct (p c); simpl; lia. Qed.

Lemma take_drop_while p s :
  take (length s - length (drop_while p s)) s = take_while p s.
Proof.
  induction s as [|c s IH]; simpl; [done|].
  destruct (p c).
  - pose proof (drop_while_length p s).
    replace (S (length s) - length (drop_while p s))%nat
      with (S (length s - length (drop_while p s))) by lia.
    simpl. by rewrite IH.
  - by rewrite Nat.sub_diag.
Qed.

(** A pattern that starts with [^] matches at the start of the subject
    only. *)
Lemma search_from_bol n r s :
  (length s < n)%nat -> search_from n (Bol ⋅ r) s = None.
Proof.
  induction s as [|c s IH]; intros Hn; simpl in *.
  - destruct n; [lia | done].
  - destruct n as [|n]; [lia|].
    destruct (length s =? n)%nat eqn:E; [apply Nat.eqb_eq in E; lia|].
    apply IH. lia.
Qed.

(** [re.search(r'^([class]+)', s)]: the longest run of the class at the
    start of [s], if it is not empty. *)
Lemma search_bol_run p s :
  search (Bol ⋅ Grp (Plus p)) s =
  match take_while p s with
  | [] => None
  | name => Some (drop_while p s, Some name)
  end.
Proof.
  unfold search. destruct s as [|c s]; [done|].
  cbn [search_from rmatch]. rewrite Nat.eqb_refl.
  cbn [take_while drop_while]. destruct (p c) eqn:Hc.
  - rewrite star_greedy by done. unfold accept.
    pose proof (take_drop_while p (c :: s)) as H.
    cbn [drop_while take_while] in H. rewrite Hc in H. by rewrite H.
  - apply search_from_bol. simpl. lia.
Qed.

(** What [strip] leaves alone. *)
Lemma drop_while_id p s :
  match s with [] => True | c :: _ => p c = false end -> drop_while p s = s.
Proof. destruct s as [|c s]; simpl; [done|]. by intros ->. Qed.

Lemma strip_id s :
  forallb (fun c => negb (is_space c)) s = true -> strip s = s.
Proof.
  intros H. unfold strip.
  rewrite (drop_while_id is_space s).
  - rewrite (drop_while_id is_space (rev s)); [apply rev_involutive|].
    destruct (rev s) as [|c t] eqn:E; [done|].
    rewrite forallb_forall in H. specialize (H c).
    rewrite negb_true_iff in H. apply H. apply in_rev. rewrite E. by left.
  - destruct s as [|c t]; [done|]. simpl in H.
    apply andb_true_iff in H as [H _]. by apply negb_true_iff in H.
Qed.

Lemma forallb_impl (p q : ascii -> bool) s :
  (forall c, p c = true -> q c = true) -> forallb p s = true -> forallb q s = true.
Proof.
  intros Hpq. rewrite !forallb_forall. intros H c Hc. apply Hpq, H, Hc.
Qed.

Lemma alnum_or_not_space c :
  alnum_or s{"-."} c = true -> negb (is_space c) = true.
Proof. destruct c as [[] [] [] [] [] [] [] []]; vm_compute; congruence. Qed.

End Matcher.

(* ===================================================================== *)
(** ** Port detection and classification *)
(* ===================================================================== *)

Section Ports.

Lemma scan_ports_spec bl table fp fs :
  let hit := fun e : Z * str => contains (str_of_int (fst e) ++ s{"/tcp"}) bl in
  scan_ports bl table fp fs =
  (fp ++ (fst <$> List.filter hit table), fs ++ (snd <$> List.filter hit table)).
Proof.
  intros hit. revert fp fs.
  induction table as [|[port service] table IH]; intros fp fs; simpl.
  - by rewrite !app_nil_r.
  - cbn [scan_ports List.filter].
    assert (Hh : hit (port, service) = contains (str_of_int port ++ s{"/tcp"}) bl) by done.
    rewrite Hh. destruct (contains _ bl); [|apply IH].
    rewrite IH. cbn [fmap list_fmap fst snd]. by rewrite <- !app_assoc.
Qed.

Lemma filter_fst_fmap (f : Z -> bool) (l : list (Z * str)) :
  fst <$> List.filter (fun e => f (fst e)) l = List.filter f (fst <$> l).
Proof.
  induction l as [|e l IH]; [done|].
  rewrite fmap_cons. cbn [List.filter].
  destruct (f (fst e)); [rewrite fmap_cons|]; by rewrite IH.
Qed.

Lemma bool_decide_filter (f : Z -> bool) (x : Z) (l : list Z) :
  In x l -> bool_decide (x ∈ List.filter f l) = f x.
Proof.
  intros Hx. destruct (f x) eqn:E.
  - apply bool_decide_eq_true. apply list_elem_of_In, filter_In. done.
  - apply bool_decide_eq_false. rewrite list_elem_of_In, filter_In. intros [_ ?]. congruence.
Qed.

Lemma service_name_table e : In e AD_PORTS -> service_name (fst e) = Some (snd e).
Proof.
  unfold AD_PORTS. simpl. intros H.
  repeat (destruct H as [<-|H]; [reflexivity|]). done.
Qed.

(** The three results of [_check_domain_controller] in closed form. *)
Lemma check_domain_controller_spec block :
  let hits := List.filter (fun e => port_seen block (fst e)) AD_PORTS in
  _check_domain_controller block =
  (port_seen block 88 && (port_seen block 389 || port_seen block 636),
   fst <$> hits, snd <$> hits).
Proof.
  intros hits. unfold _check_domain_controller.
  rewrite scan_ports_spec. cbn [app].
  change (List.filter _ AD_PORTS) with hits.
  assert (Hp : fst <$> hits = List.filter (port_seen block) (fst <$> AD_PORTS))
    by apply (filter_fst_fmap (port_seen block)).
  assert (Hd : forall x, In x (fst <$> AD_PORTS) ->
                bool_decide (x ∈ fst <$> hits) = port_seen block x).
  { intros x Hx. rewrite <- (bool_decide_filter (port_seen block) x _ Hx).
    apply bool_decide_ext. by rewrite Hp. }
  rewrite !Hd; [done | | |]; simpl; tauto.
Qed.

End Ports.

(** C5. For every host block, the ports list of [_check_domain_controller]
    is the fixed table 88, 389, 636, 445, 3268, 3269, 53, 135 filtered, in
    table order, by whether ["<port>/tcp"] occurs in the lowercased block;
    the services list has the same length and holds, at every index, the
    table's name of the port at that index. *)
Theorem C5_ports_in_table_order (block : str) :
  let '(_, found_ports, found_services) := _check_domain_controller block in
  found_ports =
    List.filter (fun port => contains (str_of_int port ++ s{"/tcp"}) (lower block))
                [88; 389; 636; 445; 3268; 3269; 53; 135]
  /\ length found_services = length found_ports
  /\ forall (i : nat) (port : Z),
       found_ports !! i = Some port -> found_services !! i = service_name port.
Proof.
  rewrite check_domain_controller_spec. cbv zeta.
  set (hits := List.filter _ AD_PORTS).
  split; [|split].
  - unfold hits. by rewrite (filter_fst_fmap (port_seen block)).
  - by rewrite !length_fmap.
  - intros i port. rewrite !list_lookup_fmap.
    destruct (hits !! i) as [e|] eqn:E; simpl; [|done].
    intros [= <-]. symmetry. apply service_name_table.
    apply list_elem_of_lookup_2 in E. apply list_elem_of_In in E.
    unfold hits in E. by apply filter_In in E as [E _].
Qed.

(* ===================================================================== *)
(** ** Host blocks *)
(* ===================================================================== *)

(** A dotted quad found by [Pat.ip] is never the empty string, so the
    [if not ip] test of [_parse_host] only rejects a missing match. *)
Lemma ip_group_nonempty (line : str) (m : result) :
  search Pat.ip line = Some m -> exists c t, group1 m = c :: t.
Proof.
  intros H. apply search_sound in H as (pre & t & _ & D).
  unfold Pat.ip in D. cbn [denotes] in D.
  destruct D as [[g0 (t1 & t2 & g1 & -> & (Hne & _ & _) & _)] Hg].
  unfold group1. rewrite Hg. simpl.
  destruct t1 as [|c t1]; [done|]. by exists c, (t1 ++ t2).
Qed.

Lemma parse_host_no_ip (host_block : str) (self : NmapParser) :
  search Pat.ip (first_line host_block) = None ->
  _parse_host host_block self = (self, Returns None).
Proof. intros H. unfold _parse_host. by rewrite H. Qed.

(** [_parse_host] on a block with an address, in closed form. *)
Lemma parse_host_ip (host_block : str) (self : NmapParser) (m : result) :
  search Pat.ip (first_line host_block) = Some m ->
  _parse_host host_block self =
  if port_seen host_block 88 && (port_seen host_block 389 || port_seen host_block 636)
  then
    let domain := _extract_domain host_block in
    let netbios := _extract_netbios host_block in
    let '(_, ports, services) := _check_domain_controller host_block in
    (set_netbios_domains (add_if_truthy netbios (netbios_domains self))
       (set_domain_names (add_if_truthy domain (domain_names self)) self),
     Returns (Some (mkDC (group1 m) (hostname_of (first_line host_block) (group1 m))
                         domain netbios ports services)))
  else (self, Returns None).
Proof.
  intros H. unfold _parse_host. rewrite H. cbn [fmap option_fmap option_map].
  destruct (ip_group_nonempty _ _ H) as (c & t & ->).
  rewrite check_domain_controller_spec. cbv zeta.
  by destruct (port_seen host_block 88 && _).
Qed.

(** C1. For every host block whose first line holds a dotted quad,
    [_parse_host] returns a Domain Controller record if and only if the
    lowercased block contains ["88/tcp"] and also ["389/tcp"] or
    ["636/tcp"]; otherwise (so with only ["88/tcp"], or only ["389/tcp"])
    it returns [None], raises nothing and leaves the parser as it was. *)
Theorem C1_promoted_iff_kerberos_and_ldap
    (host_block : str) (self : NmapParser) (m : result) :
  search Pat.ip (first_line host_block) = Some m ->
  let qualifies :=
    contains s{"88/tcp"} (lower host_block) &&
    (contains s{"389/tcp"} (lower host_block) || contains s{"636/tcp"} (lower host_block)) in
  ((exists self' dc, _parse_host host_block self = (self', Returns (Some dc)))
     <-> qualifies = true)
  /\ (qualifies = false -> _parse_host host_block self = (self, Returns None))
  /\ (contains s{"389/tcp"} (lower host_block) = false ->
      contains s{"636/tcp"} (lower host_block) = false ->
      _parse_host host_block self = (self, Returns None))
  /\ (contains s{"88/tcp"} (lower host_block) = false ->
      _parse_host host_block self = (self, Returns None)).
Proof.
  intros H qualifies. rewrite (parse_host_ip _ _ _ H).
  change (port_seen host_block 88 && (port_seen host_block 389 || port_seen host_block 636))
    with qualifies.
  split; [|split; [|split]].
  - destruct qualifies; cbv zeta.
    + destruct (_check_domain_controller host_block) as [[? ?] ?]. split; eauto.
    + split; [intros (? & ? & [=]) | done].
  - by intros ->.
  - intros H1 H2. replace qualifies with false; [done|].
    unfold qualifies. rewrite H1, H2. by rewrite andb_false_r.
  - intros H1. replace qualifies with false; [done|].
    unfold qualifies. by rewrite H1.
Qed.

Lemma C1_witness :
  search Pat.ip (first_line sample_dc_block) = Some (s{")"}, Some s{"10.0.0.5"})
  /\ exists self' dc, _parse_host sample_dc_block init = (self', Returns (Some dc)).
Proof.
  assert (E : search Pat.ip (first_line sample_dc_block) = Some (s{")"}, Some s{"10.0.0.5"}))
    by (vm_compute; reflexivity).
  split; [exact E|].
  apply (proj1 (C1_promoted_iff_kerberos_and_ldap sample_dc_block init _ E)).
  vm_compute. reflexivity.
Defined.

(** C6 (as the code has it). For every host block with a dotted quad on
    its first line, the hostname is the text of the first line before its
    first ["("], stripped of surrounding whitespace, whenever at least one
    character stands before that ["("], and it is the address when none
    does; a block that qualifies is returned as a record with that
    hostname and the address.  A block without an address is rejected:
    [_parse_host] returns [None]. *)
Theorem C6_hostname_before_paren (host_block : str) (self : NmapParser) :
  (forall m : result,
     search Pat.ip (first_line host_block) = Some m ->
     let name := take_while (none_of s{"("}) (first_line host_block) in
     let expected :=
       match name with
       | [] => group1 m
       | _ :: _ => strip name
       end in
     hostname_of (first_line host_block) (group1 m) = expected
     /\ (contains s{"88/tcp"} (lower host_block) &&
         (contains s{"389/tcp"} (lower host_block) ||
          contains s{"636/tcp"} (lower host_block)) = true ->
         exists self' dc,
           _parse_host host_block self = (self', Returns (Some dc))
           /\ ip dc = group1 m /\ hostname dc = expected))
  /\ (search Pat.ip (first_line host_block) = None ->
      _parse_host host_block self = (self, Returns None)).
Proof.
  split; [|apply parse_host_no_ip].
  intros m H name expected.
  assert (Hh : hostname_of (first_line host_block) (group1 m) = expected).
  { unfold hostname_of, Pat.hostname. rewrite search_bol_run. fold name.
    unfold expected. by destruct name. }
  split; [exact Hh|].
  intros Q. rewrite (parse_host_ip _ _ _ H).
  change (port_seen host_block 88 && (port_seen host_block 389 || port_seen host_block 636))
    with (contains s{"88/tcp"} (lower host_block) &&
          (contains s{"389/tcp"} (lower host_block) ||
           contains s{"636/tcp"} (lower host_block))).
  rewrite Q. cbv zeta.
  destruct (_check_domain_controller host_block) as [[? ?] ?].
  eexists _, _. split; [reflexivity|]. cbn [ip hostname]. by rewrite Hh.
Qed.

Lemma C6_witness :
  search Pat.ip (first_line sample_dc_block) = Some (s{")"}, Some s{"10.0.0.5"})
  /\ exists self' dc,
       _parse_host sample_dc_block init = (self', Returns (Some dc))
       /\ ip dc = s{"10.0.0.5"} /\ hostname dc = s{"dc01.corp.local"}.
Proof.
  assert (E : search Pat.ip (first_line sample_dc_block) = Some (s{")"}, Some s{"10.0.0.5"}))
    by (vm_compute; reflexivity).
  split; [exact E|].
  exact (proj2 (proj1 (C6_hostname_before_paren sample_dc_block init) _ E)
           ltac:(vm_compute; reflexivity)).
Defined.

(** C6 does not hold as first worded ("the hostname defaults to the
    address when no name exists on the header line"): on a header line
    with only blanks before the parenthesis no name exists, yet the pattern
    matches the blanks and the record gets the empty hostname, not the
    address. *)
Lemma C6_counterexample :
  strip (take_while (none_of s{"("}) (first_line sample_blank_name_block)) = []
  /\ exists dc,
       _parse_host sample_blank_name_block init = (init, Returns (Some dc))
       /\ ip dc = s{"10.0.0.5"}
       /\ hostname dc = s{""}
       /\ hostname dc <> ip dc.
Proof.
  split; [vm_compute; reflexivity|].
  eexists. split; [vm_compute; reflexivity|]. cbn [ip hostname].
  repeat split; done.
Qed.

(* ===================================================================== *)
(** ** The loop over host blocks *)
(* ===================================================================== *)

Section Loop.

Variable parse_host : str -> NmapParser -> NmapParser * outcome (option DomainController).

Lemma parse_loop_app (pre post : list str) : forall (idx : Z) (self : NmapParser),
  parse_loop parse_host idx (pre ++ post) self =
  parse_loop parse_host (idx + Z.of_nat (length pre)) post
    (parse_loop parse_host idx pre self).
Proof.
  induction pre as [|b pre IH]; intros idx self; simpl.
  - by rewrite Z.add_0_r.
  - rewrite IH. f_equal. lia.
Qed.

Lemma parse_loop_raises (idx : Z) (b : str) (rest : list str) (self s2 : NmapParser) (msg : str) :
  parse_host b self = (s2, Raises msg) ->
  parse_loop parse_host idx (b :: rest) self =
  parse_loop parse_host (idx + 1) rest
    (set_parse_errors
       (parse_errors s2 ++ [s{"Host "} ++ str_of_int idx ++ s{": "} ++ msg]) s2).
Proof. intros H. simpl. by rewrite H. Qed.

End Loop.

(** C7. For every report, every per-host step and every host block at
    1-based index [i]: if the step raises on that block, the handler
    appends the one message ["Host i: <message>"] to the error list of the
    state the step left, adds no record, and the loop goes on with block
    [i + 1]; [parse] returns [True]. *)
Theorem C7_exception_recorded_run_continues
    (parse_host : str -> NmapParser -> NmapParser * outcome (option DomainController))
    (content : str) (self s2 : NmapParser)
    (pre : list str) (b : str) (post : list str) (msg : str) :
  tail (split marker content) = pre ++ b :: post ->
  let i := Z.of_nat (length pre) + 1 in
  let self0 := set_total_hosts (Z.of_nat (length (split marker content)) - 1) self in
  parse_host b (parse_loop parse_host 1 pre self0) = (s2, Raises msg) ->
  let s3 := set_parse_errors
              (parse_errors s2 ++ [s{"Host "} ++ str_of_int i ++ s{": "} ++ msg]) s2 in
  parse_loop parse_host 1 (pre ++ [b]) self0 = s3
  /\ domain_controllers s3 = domain_controllers s2
  /\ parse_with parse_host (Returns content) self =
     (parse_loop parse_host (i + 1) post s3, true).
Proof.
  intros Hblocks i self0 Hraise s3.
  assert (H1 : parse_loop parse_host 1 (pre ++ [b]) self0 = s3).
  { rewrite parse_loop_app. rewrite (parse_loop_raises _ _ _ _ _ s2 msg Hraise).
    cbn [parse_loop]. unfold s3, i.
    by replace (1 + Z.of_nat (length pre)) with (Z.of_nat (length pre) + 1) by lia. }
  split; [exact H1|]. split; [done|].
  unfold parse_with. fold self0. rewrite Hblocks.
  change (pre ++ b :: post) with (pre ++ [b] ++ post).
  rewrite app_assoc, parse_loop_app, H1. do 2 f_equal.
  rewrite length_app. simpl. unfold i. lia.
Qed.

Lemma C7_witness :
  let ph := raising_on s{"bad block"} s{"boom"} in
  let content := s{"Starting Nmap"} ++ nl ++ marker ++ sample_dc_block ++
                 marker ++ s{"bad block"} ++ marker ++ sample_dc_block in
  parse_errors (fst (parse_with ph (Returns content) init)) = [s{"Host 2: boom"}]
  /\ length (domain_controllers (fst (parse_with ph (Returns content) init))) = 2%nat
  /\ snd (parse_with ph (Returns content) init) = true.
Proof.
  intros ph content.
  assert (Hb : tail (split marker content) =
               [sample_dc_block] ++ s{"bad block"} :: [sample_dc_block])
    by (vm_compute; reflexivity).
  pose proof (C7_exception_recorded_run_continues ph content init
                (parse_loop ph 1 [sample_dc_block]
                   (set_total_hosts (Z.of_nat (length (split marker content)) - 1) init))
                [sample_dc_block] s{"bad block"} [sample_dc_block] s{"boom"} Hb
                ltac:(vm_compute; reflexivity)) as (_ & _ & H).
  rewrite H. repeat split; vm_compute; reflexivity.
Defined.

(** C8. For every host block whose first line holds no dotted quad,
    [_parse_host] returns [None] without raising and leaves the parser as
    it was, and the loop of [parse] goes on to the next block with that
    same state: nothing is appended to the error list. *)
Theorem C8_no_ip_dropped_silently (host_block : str) (self : NmapParser) :
  search Pat.ip (first_line host_block) = None ->
  _parse_host host_block self = (self, Returns None)
  /\ parse_errors (parse_loop _parse_host 1 [host_block] self) = parse_errors self
  /\ forall (idx : Z) (rest : list str),
       parse_loop _parse_host idx (host_block :: rest) self =
       parse_loop _parse_host (idx + 1) rest self.
Proof.
  intros H. pose proof (parse_host_no_ip host_block self H) as E.
  split; [exact E|]. split.
  - simpl. by rewrite E.
  - intros idx rest. simpl. by rewrite E.
Qed.

Lemma C8_witness :
  search Pat.ip (first_line sample_no_ip_block) = None
  /\ _parse_host sample_no_ip_block init = (init, Returns None).
Proof.
  assert (E : search Pat.ip (first_line sample_no_ip_block) = None)
    by (vm_compute; reflexivity).
  split; [exact E|].
  exact (proj1 (C8_no_ip_dropped_silently sample_no_ip_block init E)).
Defined.

(* ===================================================================== *)
(** ** Splitting the report *)
(* ===================================================================== *)

Lemma marker_border_free : border_free marker = true.
Proof. vm_compute. reflexivity. Qed.

Lemma marker_nonempty : marker <> [].
Proof. done. Qed.

(** The blocks of a report that starts with a marker-free preamble. *)
Lemma blocks_after_preamble (pre rest : str) :
  contains marker pre = false ->
  split marker (pre ++ marker ++ rest) = pre :: split marker rest.
Proof.
  intros H.
  pose proof (find_app_border_free marker pre rest marker_border_free H) as F.
  rewrite (split_first _ _ _ marker_nonempty F).
  rewrite take_app_length. f_equal. f_equal.
  rewrite drop_app_add'; [|done]. by rewrite drop_app_length.
Qed.

(** A port number at the end of a longer one is found as well. *)
Lemma longer_port_counts (block : str) :
  contains s{"3389/tcp"} (lower block) = true -> port_seen block 389 = true.
Proof. apply (contains_suffix s{"3"} s{"389/tcp"}). Qed.

(** C10. There is a host block with an address on its first line whose
    only port lines are those of 88/tcp and 3389/tcp, for which port 389
    (LDAP) is recorded and which is classified as a domain controller. *)
Theorem C10_port_suffix_false_positive :
  exists block : str,
    split nl block =
      [s{"10.0.0.7"}; s{"88/tcp   open  kerberos-sec"};
       s{"3389/tcp open  ms-wbt-server"}; s{""}]
    /\ group1 <$> search Pat.ip (first_line block) = Some s{"10.0.0.7"}
    /\ _check_domain_controller block = (true, [88; 389], [s{"Kerberos"}; s{"LDAP"}])
    /\ exists dc, _parse_host block init = (init, Returns (Some dc))
                  /\ ports dc = [88; 389].
Proof.
  exists sample_rdp_block. repeat split; try (vm_compute; reflexivity).
  eexists. split; vm_compute; reflexivity.
Qed.

(* ===================================================================== *)
(** ** Domain extraction *)
(* ===================================================================== *)

(** The text the Domain pattern captures has no whitespace at its ends, so
    the [strip()] applied to it changes nothing. *)
Lemma domain_group_clean (block : str) (m : result) :
  search Pat.domain block = Some m -> strip (group1 m) = group1 m.
Proof.
  intros H. apply search_sound in H as (pre & t & _ & D).
  unfold Pat.domain in D. cbn [denotes] in D.
  destruct D as (t1 & t2 & g1 & _ & _ & (t3 & t4 & g2 & _ & _ & [g0 (_ & Hp & _)] & Hg)).
  unfold group1. rewrite Hg. cbn [default].
  apply strip_id. revert Hp. apply forallb_impl, alnum_or_not_space.
Qed.

(** The text the forest pattern captures has no whitespace at its ends
    either. *)
Lemma forest_group_clean (block : str) (m : result) :
  search Pat.forest block = Some m -> strip (group1 m) = group1 m.
Proof.
  intros H. apply search_sound in H as (pre & t & _ & D).
  unfold Pat.forest in D. cbn [denotes] in D.
  destruct D as (t1 & t2 & g1 & _ & _ & (t3 & t4 & g2 & _ & _ & [g0 (_ & Hp & _)] & Hg)).
  unfold group1. rewrite Hg. cbn [default].
  apply strip_id. revert Hp. apply forallb_impl, alnum_or_not_space.
Qed.

(** C3. [_extract_domain] tries its four strategies in the order Domain
    label, naming context, DNS computer name, forest, and returns what the
    first one that yields a value returns.  A match of the Domain pattern
    is returned whatever the other fields hold.  Without one, a naming
    context with at least one [DC=] component gives the components joined
    with dots.  When that yields nothing (no match, or no component), a
    DNS computer name with a dot gives its labels after the first.  When
    that yields nothing either (no match, or no dot), a match of the forest
    pattern gives its value, and without one the result is [None]; so it
    is [None] when none of the four patterns matches. *)
Theorem C3_strategy_order (block : str) :
  (forall m : result,
     search Pat.domain block = Some m -> _extract_domain block = Some (group1 m))
  /\ (search Pat.domain block = None ->
      (forall (m : result) (part : str) (parts : list str),
         search Pat.naming_context block = Some m ->
         findall Pat.dc_part (strip (group1 m)) = part :: parts ->
         _extract_domain block = Some (join s{"."} (part :: parts)))
      /\ (search Pat.naming_context block = None \/
          (exists m, search Pat.naming_context block = Some m /\
                     findall Pat.dc_part (strip (group1 m)) = []) ->
          (forall m : result,
             search Pat.dns_hostname block = Some m ->
             contains s{"."} (strip (group1 m)) = true ->
             _extract_domain block =
               Some (join s{"."} (tail (split s{"."} (strip (group1 m))))))
          /\ (search Pat.dns_hostname block = None \/
              (exists m, search Pat.dns_hostname block = Some m /\
                         contains s{"."} (strip (group1 m)) = false) ->
              (forall m : result,
                 search Pat.forest block = Some m ->
                 _extract_domain block = Some (group1 m))
              /\ (search Pat.forest block = None -> _extract_domain block = None))))
  /\ (search Pat.domain block = None -> search Pat.naming_context block = None ->
      search Pat.dns_hostname block = None -> search Pat.forest block = None ->
      _extract_domain block = None).
Proof.
  unfold _extract_domain.
  split; [|split].
  - intros m H. unfold domain_method1. rewrite H. by rewrite (domain_group_clean _ _ H).
  - intros H1. unfold domain_method1. rewrite H1. split.
    + intros m part parts H2 F. unfold domain_method2. rewrite H2. cbv zeta. by rewrite F.
    + intros H2.
      assert (E2 : domain_method2 block = None).
      { unfold domain_method2. destruct H2 as [->|(m & -> & F)]; [done|].
        cbv zeta. by rewrite F. }
      rewrite E2. split.
      * intros m H3 Hdot. unfold domain_method3. rewrite H3. cbv zeta. by rewrite Hdot.
      * intros H3.
        assert (E3 : domain_method3 block = None).
        { unfold domain_method3. destruct H3 as [->|(m & -> & Hdot)]; [done|].
          cbv zeta. by rewrite Hdot. }
        rewrite E3. unfold domain_method4. split.
        -- intros m H4. rewrite H4. by rewrite (forest_group_clean _ _ H4).
        -- by intros ->.
  - intros H1 H2 H3 H4.
    unfold domain_method1, domain_method2, domain_method3, domain_method4.
    by rewrite H1, H2, H3, H4.
Qed.

Lemma C3_witness :
  _extract_domain sample_two_domains_block = Some s{"corp.local"}
  /\ domain_method2 sample_two_domains_block = Some s{"other"}
  /\ _extract_domain sample_naming_context_block = Some s{"corp"}
  /\ _extract_domain sample_dns_name_block = Some s{"corp.local"}
  /\ _extract_domain sample_forest_block = Some s{"lab.local"}
  /\ _extract_domain sample_dc_block = None.
Proof.
  split; [|split; [|split; [|split; [|split]]]].
  - exact (proj1 (C3_strategy_order sample_two_domains_block)
             (nl ++ s{"|   defaultNamingContext: DC=other,DC=example"} ++ nl,
              Some s{"corp.local"})
             ltac:(vm_compute; reflexivity)).
  - vm_compute. reflexivity.
  - exact (proj1 (proj1 (proj2 (C3_strategy_order sample_naming_context_block))
                    ltac:(vm_compute; reflexivity))
             (s{",DC=example,DC=local"}, Some s{"DC=corp"}) s{"corp"} []
             ltac:(vm_compute; reflexivity) ltac:(vm_compute; reflexivity)).
  - exact (proj1 (proj2 (proj1 (proj2 (C3_strategy_order sample_dns_name_block))
                           ltac:(vm_compute; reflexivity))
                    ltac:(left; vm_compute; reflexivity))
             (nl, Some s{"dc01.corp.local"})
             ltac:(vm_compute; reflexivity) ltac:(vm_compute; reflexivity)).
  - exact (proj1 (proj2 (proj2 (proj1 (proj2 (C3_strategy_order sample_forest_block))
                                  ltac:(vm_compute; reflexivity))
                           ltac:(left; vm_compute; reflexivity))
                    ltac:(left; vm_compute; reflexivity))
             (nl, Some s{"lab.local"})
             ltac:(vm_compute; reflexivity)).
  - exact (proj2 (proj2 (C3_strategy_order sample_dc_block))
             ltac:(vm_compute; reflexivity) ltac:(vm_compute; reflexivity)
             ltac:(vm_compute; reflexivity) ltac:(vm_compute; reflexivity)).
Defined.

Lemma dot_border_free : border_free s{"."} = true.
Proof. reflexivity. Qed.

(** Dropping the first label: what is left of [host.rest] is [rest]. *)
Lemma join_tail_split_dot (host rest : str) :
  contains s{"."} host = false ->
  join s{"."} (tail (split s{"."} (host ++ s{"."} ++ rest))) = rest.
Proof.
  intros H.
  pose proof (find_app_border_free s{"."} host rest dot_border_free H) as F.
  rewrite (split_first s{"."} _ _ ltac:(done) F). cbn [tail].
  rewrite drop_app_add'; [|done].
  change (drop (length s{"."}) (s{"."} ++ rest)) with rest.
  apply join_split.
Qed.

(** C4. For every host block for which the first two methods yield
    nothing and the DNS computer name pattern matches a value (stripped)
    with a dot in it, the domain is the dot-separated labels of the value
    after the first, joined with dots: if the value is [host.rest] with no
    dot in [host], the domain is [rest]. *)
Theorem C4_dns_computer_name (block : str) (m : result) :
  domain_method1 block = None -> domain_method2 block = None ->
  search Pat.dns_hostname block = Some m ->
  let fqdn := strip (group1 m) in
  contains s{"."} fqdn = true ->
  _extract_domain block = Some (join s{"."} (tail (split s{"."} fqdn)))
  /\ forall host rest : str,
       fqdn = host ++ s{"."} ++ rest -> contains s{"."} host = false ->
       _extract_domain block = Some rest.
Proof.
  intros H1 H2 H3 fqdn Hdot.
  assert (E : _extract_domain block = Some (join s{"."} (tail (split s{"."} fqdn)))).
  { unfold _extract_domain. rewrite H1, H2. unfold domain_method3.
    rewrite H3. fold fqdn. by rewrite Hdot. }
  split; [exact E|].
  intros host rest Hf Hh. rewrite E, Hf. by rewrite join_tail_split_dot.
Qed.

Lemma C4_witness :
  search Pat.dns_hostname sample_dns_name_block = Some (nl, Some s{"dc01.corp.local"})
  /\ _extract_domain sample_dns_name_block = Some s{"corp.local"}.
Proof.
  assert (E : search Pat.dns_hostname sample_dns_name_block =
              Some (nl, Some s{"dc01.corp.local"}))
    by (vm_compute; reflexivity).
  split; [exact E|].
  refine (proj2 (C4_dns_computer_name sample_dns_name_block _ _ _ E _)
            s{"dc01"} s{"corp.local"} _ _); vm_compute; reflexivity.
Defined.

(** C2 (what the code does). On the specification's example, a block
    holding [defaultNamingContext: DC=corp,DC=example,DC=local] and no
    Domain label, the capture of the naming-context pattern ends at the
    first comma, so a single component is found and the extracted domain
    is [corp], not [corp.example.local]. *)
Theorem C2_naming_context_cut_at_comma :
  search Pat.domain sample_naming_context_block = None
  /\ group1 <$> search Pat.naming_context sample_naming_context_block = Some s{"DC=corp"}
  /\ findall Pat.dc_part s{"DC=corp"} = [s{"corp"}]
  /\ findall Pat.dc_part s{"DC=corp,DC=example,DC=local"}
     = [s{"corp"}; s{"example"}; s{"local"}]
  /\ _extract_domain sample_naming_context_block = Some s{"corp"}.
Proof. repeat split; vm_compute; reflexivity. Qed.

(** *** Why the naming context never gives more than one component *)

Section NamingContext.

Implicit Types (s : str) (p : ascii -> bool).

Lemma forallb_drop_while p q s :
  forallb p s = true -> forallb p (drop_while q s) = true.
Proof.
  induction s as [|c s IH]; simpl; [done|].
  intros H. destruct (q c); [|done].
  apply andb_true_iff in H as [_ H]. by apply IH.
Qed.

Lemma forallb_rev p s : forallb p s = true -> forallb p (rev s) = true.
Proof.
  rewrite !forallb_forall. intros H c Hc. apply H. by apply in_rev.
Qed.

Lemma forallb_strip p s : forallb p s = true -> forallb p (strip s) = true.
Proof.
  intros H. unfold strip.
  by apply forallb_rev, forallb_drop_while, forallb_rev, forallb_drop_while.
Qed.

Lemma forallb_app_r p (t s : str) : forallb p (t ++ s) = true -> forallb p s = true.
Proof. rewrite forallb_app. by intros [_ ?]%andb_true_iff. Qed.

Lemma drop_while_all p s : forallb p s = true -> drop_while p s = [].
Proof.
  induction s as [|c s IH]; simpl; [done|].
  intros [-> H]%andb_true_iff. by apply IH.
Qed.

(** On a text made of the class of its trailing group, a match runs to
    the end of the text. *)
Lemma trailing_group_takes_all n (r : regex) p s (g : option str) (m : result) :
  forallb p s = true ->
  rmatch n (r ⋅ Grp (Plus p)) s g accept = Some m -> fst m = [].
Proof.
  intros Hp H. cbn [rmatch] in H.
  apply rmatch_sound in H as (t & s1 & g1 & -> & _ & H).
  apply forallb_app_r in Hp.
  destruct s1 as [|c s1]; [done|].
  simpl in Hp. apply andb_true_iff in Hp as [Hc Hs]. rewrite Hc in H.
  rewrite star_greedy in H by done.
  rewrite (drop_while_all _ _ Hs) in H.
  unfold accept in H. by injection H as <-.
Qed.

Lemma findall_skip_all n s : findall_from n Pat.dc_part (length s) s = [].
Proof. induction s as [|c s IH]; [done | apply IH]. Qed.

Lemma findall_dc_part_single n s :
  forallb (none_of s{","}) s = true ->
  (length (findall_from n Pat.dc_part 0 s) <= 1)%nat.
Proof.
  induction s as [|c s IH]; intros Hp; [simpl; lia|].
  cbn [findall_from].
  destruct (rmatch n Pat.dc_part (c :: s) None accept) as [[rest g]|] eqn:E.
  - apply (trailing_group_takes_all n _ _ _ _ _ Hp) in E. simpl in E. subst rest.
    change (length (c :: s) - length (@nil ascii) - 1)%nat with (length s - 0)%nat.
    rewrite Nat.sub_0_r, findall_skip_all. simpl. lia.
  - apply IH. simpl in Hp. by apply andb_true_iff in Hp as [_ ?].
Qed.

Lemma naming_context_group_no_comma (block : str) (m : result) :
  search Pat.naming_context block = Some m ->
  forallb (none_of s{","}) (group1 m) = true.
Proof.
  intros H. apply search_sound in H as (pre & t & _ & D).
  unfold Pat.naming_context in D. cbn [denotes] in D.
  destruct D as (t1 & t2 & g1 & _ & _ & (t3 & t4 & g2 & _ & _ & [g0 (_ & Hp & _)] & Hg)).
  unfold group1. rewrite Hg. cbn [default]. revert Hp. apply forallb_impl.
  intros c. unfold none_of. simpl. rewrite !negb_true_iff, !orb_false_iff. tauto.
Qed.

(** For every block, Method 2 returns the text of one [DC=] token: its
    list of components never has a second element to join. *)
Lemma naming_context_single_component (block d : str) :
  domain_method2 block = Some d ->
  exists m, search Pat.naming_context block = Some m
            /\ findall Pat.dc_part (strip (group1 m)) = [d].
Proof.
  unfold domain_method2.
  destruct (search Pat.naming_context block) as [m|] eqn:E; [|done].
  cbv zeta. intros H. exists m. split; [done|].
  pose proof (findall_dc_part_single (length (strip (group1 m))) (strip (group1 m))
                (forallb_strip _ _ (naming_context_group_no_comma _ _ E))) as Hlen.
  fold (findall Pat.dc_part (strip (group1 m))) in Hlen.
  destruct (findall Pat.dc_part (strip (group1 m))) as [|part [|? ?]];
    [done | | simpl in Hlen; lia].
  simpl in H. congruence.
Qed.

End NamingContext.

(* ===================================================================== *)
(** ** Further examples *)
(* ===================================================================== *)

(** A header line with only blanks before the parenthesis: the pattern
    matches the blanks, and stripping them leaves the empty hostname. *)
Example hostname_blank_before_paren :
  hostname_of s{"  (10.0.0.5)"} s{"10.0.0.5"} = s{""}.
Proof. reflexivity. Qed.

Example hostname_line_starts_with_paren :
  hostname_of s{"(10.0.0.5)"} s{"10.0.0.5"} = s{"10.0.0.5"}.
Proof. reflexivity. Qed.

Example hostname_bare_address :
  hostname_of s{"10.0.0.5"} s{"10.0.0.5"} = s{"10.0.0.5"}.
Proof. reflexivity. Qed.

Example netbios_upper :
  _extract_netbios (s{"|   NetBIOS computer name: dc01"} ++ nl) = Some s{"DC01"}.
Proof. vm_compute. reflexivity. Qed.

Example only_kerberos_not_promoted :
  _parse_host (s{"10.0.0.9"} ++ nl ++ s{"88/tcp open"} ++ nl) init = (init, Returns None).
Proof. vm_compute. reflexivity. Qed.

Example only_ldap_not_promoted :
  _parse_host (s{"10.0.0.9"} ++ nl ++ s{"389/tcp open"} ++ nl) init = (init, Returns None).
Proof. vm_compute. reflexivity. Qed.

(* ===================================================================== *)
(** ** The whole run *)
(* ===================================================================== *)

Section Run.

Implicit Types (self : NmapParser) (dc : DomainController) (b : str).

(** [_parse_host] in terms of the record of the block: the record does not
    depend on the parser, and the parser only gains the record's names. *)
Lemma parse_host_record b self :
  _parse_host b self =
  match record_of b with
  | Some dc =>
      (set_netbios_domains (add_if_truthy (netbios dc) (netbios_domains self))
         (set_domain_names (add_if_truthy (domain dc) (domain_names self)) self),
       Returns (Some dc))
  | None => (self, Returns None)
  end.
Proof.
  unfold record_of.
  destruct (search Pat.ip (first_line b)) as [m|] eqn:E.
  - rewrite !(parse_host_ip _ _ _ E).
    destruct (port_seen b 88 && _); [|done]. cbv zeta.
    by destruct (_check_domain_controller b) as [[? ?] ?].
  - by rewrite !(parse_host_no_ip _ _ E).
Qed.

Lemma elem_of_add_if_truthy (o : option str) (names : gset str) (d : str) :
  d ∈ add_if_truthy o names <-> d ∈ names \/ (o = Some d /\ d <> []).
Proof.
  unfold add_if_truthy. destruct o as [[|c t]|].
  - split; [by left | intros [?|[[= <-] ?]]; done].
  - rewrite elem_of_union, elem_of_singleton. split.
    + intros [->|?]; [by right | by left].
    + intros [?|[[= <-] _]]; [by right | by left].
  - split; [by left | intros [?|[[=] _]]; done].
Qed.

Lemma elem_of_names_of field (dcs : list DomainController) (d : str) :
  d ∈ names_of field dcs <-> exists dc, dc ∈ dcs /\ field dc = Some d /\ d <> [].
Proof.
  unfold names_of. rewrite list_elem_of_omap. split.
  - intros (dc & Hin & H). exists dc. split; [done|].
    destruct (field dc) as [[|c t]|]; simpl in H; try done.
    by injection H as <-.
  - intros (dc & Hin & H & Hne). exists dc. split; [done|].
    rewrite H. by destruct d.
Qed.

Lemma omap_length_le {A B : Type} (f : A -> option B) (l : list A) :
  (length (omap f l) <= length l)%nat.
Proof.
  induction l as [|x l IH]; [done|]. cbn [omap list_omap].
  destruct (f x); simpl; lia.
Qed.

(** The loop of [parse] over [_parse_host], in closed form. *)
Lemma parse_loop_records (blocks : list str) : forall (idx : Z) self,
  let self' := parse_loop _parse_host idx blocks self in
  let new := omap record_of blocks in
  domain_controllers self' = domain_controllers self ++ new
  /\ parse_errors self' = parse_errors self
  /\ total_hosts self' = total_hosts self
  /\ (forall d, d ∈ domain_names self' <->
                d ∈ domain_names self \/ d ∈ names_of domain new)
  /\ (forall d, d ∈ netbios_domains self' <->
                d ∈ netbios_domains self \/ d ∈ names_of netbios new).
Proof.
  induction blocks as [|b blocks IH]; intros idx self.
  - cbn. rewrite app_nil_r. repeat split; try tauto;
      intros [?|H]; try done; by apply elem_of_nil in H.
  - cbn [parse_loop]. rewrite parse_host_record. cbn [omap list_omap].
    destruct (record_of b) as [dc|] eqn:E; [|apply IH].
    cbv zeta.
    specialize (IH (idx + 1)
      (set_domain_controllers
         (domain_controllers
            (set_netbios_domains (add_if_truthy (netbios dc) (netbios_domains self))
               (set_domain_names (add_if_truthy (domain dc) (domain_names self)) self))
          ++ [dc])
         (set_netbios_domains (add_if_truthy (netbios dc) (netbios_domains self))
            (set_domain_names (add_if_truthy (domain dc) (domain_names self)) self)))).
    cbv zeta in IH. destruct IH as (H1 & H2 & H3 & H4 & H5).
    split; [|split; [|split; [|split]]].
    + rewrite H1. cbn. by rewrite <- app_assoc.
    + by rewrite H2.
    + by rewrite H3.
    + intros d. rewrite H4. cbn [domain_names set_domain_controllers set_netbios_domains
                                  set_domain_names].
      rewrite elem_of_add_if_truthy, !elem_of_names_of.
      setoid_rewrite elem_of_cons. split.
      * intros [[?|[? ?]]|(dc' & ? & ? & ?)]; eauto 10.
      * intros [?|(dc' & [->|?] & ? & ?)]; eauto 10.
    + intros d. rewrite H5. cbn [netbios_domains set_domain_controllers set_netbios_domains
                                  set_domain_names].
      rewrite elem_of_add_if_truthy, !elem_of_names_of.
      setoid_rewrite elem_of_cons. split.
      * intros [[?|[? ?]]|(dc' & ? & ? & ?)]; eauto 10.
      * intros [?|(dc' & [->|?] & ? & ?)]; eauto 10.
Qed.

Lemma split_length_blocks (content : str) :
  Z.of_nat (length (split marker content)) - 1 = Z.of_nat (length (blocks_of content)).
Proof.
  unfold blocks_of, split.
  destruct (split_upto_cons (length content) marker content) as (b & bs & ->).
  simpl. lia.
Qed.

End Run.

(** C9. For every report text: if the marker ["Nmap scan report for "]
    does not occur in it, [parse] finds no host block, sets [total_hosts]
    to 0, adds no record and no error, and returns [True].  If the text is
    a marker-free preamble, a marker and a rest, [parse] runs over the
    pieces of the rest and over nothing else: the preamble is not a block,
    [total_hosts] is the number of those pieces and the records are
    theirs; the pieces joined with the marker are the rest, character for
    character, so that every block reaches [_parse_host] with its line
    breaks, a single block being the rest itself. *)
Theorem C9_split_report (content : str) (self : NmapParser) :
  (contains marker content = false ->
     tail (split marker content) = []
     /\ parse (Returns content) self = (set_total_hosts 0 self, true))
  /\ (forall pre rest : str,
        content = pre ++ marker ++ rest -> contains marker pre = false ->
        let blocks := split marker rest in
        parse (Returns content) self =
          (parse_loop _parse_host 1 blocks
             (set_total_hosts (Z.of_nat (length blocks)) self), true)
        /\ total_hosts (fst (parse (Returns content) self)) = Z.of_nat (length blocks)
        /\ domain_controllers (fst (parse (Returns content) self)) =
             domain_controllers self ++ omap record_of blocks
        /\ parse_errors (fst (parse (Returns content) self)) = parse_errors self
        /\ join marker blocks = rest
        /\ (contains marker rest = false -> blocks = [rest])).
Proof.
  split.
  - intros H. unfold parse, parse_with, split.
    rewrite (split_upto_none _ _ _ H). done.
  - intros pre rest -> H blocks.
    assert (E : parse (Returns (pre ++ marker ++ rest)) self =
                (parse_loop _parse_host 1 blocks
                   (set_total_hosts (Z.of_nat (length blocks)) self), true)).
    { unfold parse, parse_with. rewrite (blocks_after_preamble _ _ H).
      cbn [tail length]. fold blocks.
      by replace (Z.of_nat (S (length blocks)) - 1) with (Z.of_nat (length blocks)) by lia. }
    rewrite E. cbn [fst].
    destruct (parse_loop_records blocks 1 (set_total_hosts (Z.of_nat (length blocks)) self))
      as (H1 & H2 & H3 & _).
    cbv zeta in H1, H2, H3. rewrite H1, H2, H3.
    repeat split.
    + apply join_split.
    + intros H'. unfold blocks, split. by rewrite (split_upto_none _ _ _ H').
Qed.

Lemma C9_witness :
  parse (Returns (s{"# Nmap done: 0 hosts up"} ++ nl)) init = (init, true)
  /\ domain_controllers
       (fst (parse (Returns (s{"Starting Nmap"} ++ nl ++ marker ++ sample_dc_block)) init))
     = [mkDC s{"10.0.0.5"} s{"dc01.corp.local"} None None [88; 389]
             [s{"Kerberos"}; s{"LDAP"}]]
  /\ total_hosts
       (fst (parse (Returns (s{"Starting Nmap"} ++ nl ++ marker ++ sample_dc_block)) init))
     = 1.
Proof.
  split.
  - apply (proj1 (C9_split_report (s{"# Nmap done: 0 hosts up"} ++ nl) init)).
    vm_compute. reflexivity.
  - destruct (proj2 (C9_split_report
                       (s{"Starting Nmap"} ++ nl ++ marker ++ sample_dc_block) init)
                (s{"Starting Nmap"} ++ nl) sample_dc_block eq_refl
                ltac:(vm_compute; reflexivity)) as (_ & Ht & Hd & _).
    rewrite Ht, Hd. split; vm_compute; reflexivity.
Defined.

Lemma parse_total_hosts (content : str) (self : NmapParser) :
  total_hosts (fst (parse (Returns content) self)) = Z.of_nat (length (blocks_of content)).
Proof.
  unfold parse, parse_with. cbn [fst].
  destruct (parse_loop_records (tail (split marker content)) 1
              (set_total_hosts (Z.of_nat (length (split marker content)) - 1) self))
    as (_ & _ & -> & _).
  cbn [total_hosts set_total_hosts]. apply split_length_blocks.
Qed.

(** X1. The records of a run are those of its host blocks, in the order of
    the blocks, behind the records the parser already held; whether a
    block gives a record, and which, depends on that block alone. *)
Theorem parse_records_in_block_order (content : str) (self : NmapParser) :
  domain_controllers (fst (parse (Returns content) self)) =
  domain_controllers self ++ omap record_of (blocks_of content).
Proof.
  unfold parse, parse_with. cbn [fst].
  by destruct (parse_loop_records (tail (split marker content)) 1
                 (set_total_hosts (Z.of_nat (length (split marker content)) - 1) self))
    as (-> & _).
Qed.

(** X2. After a run [total_hosts] is the number of host blocks, there are
    never more new records than host blocks, and the run over
    [_parse_host] adds no entry to [parse_errors]. *)
Theorem parse_counts (content : str) (self : NmapParser) :
  let self' := fst (parse (Returns content) self) in
  total_hosts self' = Z.of_nat (length (blocks_of content))
  /\ (length (domain_controllers self') <=
      length (domain_controllers self) + length (blocks_of content))%nat
  /\ parse_errors self' = parse_errors self.
Proof.
  unfold parse, parse_with. cbn [fst].
  destruct (parse_loop_records (tail (split marker content)) 1
              (set_total_hosts (Z.of_nat (length (split marker content)) - 1) self))
    as (H1 & H2 & H3 & _).
  cbv zeta. rewrite H1, H2, H3.
  cbn [total_hosts domain_controllers parse_errors set_total_hosts].
  rewrite split_length_blocks. fold (blocks_of content).
  split; [done|]. split; [|done].
  rewrite length_app.
  pose proof (omap_length_le record_of (blocks_of content)). lia.
Qed.

(** X3. After a run the two name sets hold what they held before and,
    beyond that, exactly the non-empty [domain] (resp. [netbios]) values of
    the records the run added. *)
Theorem parse_name_sets (content : str) (self : NmapParser) (d : str) :
  let self' := fst (parse (Returns content) self) in
  let new := omap record_of (blocks_of content) in
  (d ∈ domain_names self' <-> d ∈ domain_names self \/ d ∈ names_of domain new)
  /\ (d ∈ netbios_domains self' <-> d ∈ netbios_domains self \/ d ∈ names_of netbios new).
Proof.
  unfold parse, parse_with. cbn [fst].
  destruct (parse_loop_records (tail (split marker content)) 1
              (set_total_hosts (Z.of_nat (length (split marker content)) - 1) self))
    as (_ & _ & _ & H4 & H5).
  cbv zeta. split; [apply H4 | apply H5].
Qed.

(* ===================================================================== *)
(** ** Host blocks of a report *)
(* ===================================================================== *)

Section Pieces.

Implicit Types (s sub sep : str).

(** Before its leftmost occurrence, [sub] does not occur. *)
Lemma find_take_none sub s : forall i,
  sub <> [] -> find sub s = Some i -> contains sub (take i s) = false.
Proof.
  induction s as [|c s IH]; intros i Hne; rewrite find_eq.
  - destruct (startswith sub []) eqn:E; [|done].
    apply startswith_prefix, prefix_nil_inv in E. done.
  - destruct (startswith sub (c :: s)) eqn:E.
    + intros [= <-]. rewrite take_0. rewrite contains_eq.
      destruct sub; [done | reflexivity].
    + destruct (find sub s) as [j|] eqn:F; [|done]. intros [= <-].
      cbn [take]. rewrite contains_eq, (IH j Hne eq_refl), orb_false_r.
      destruct (startswith sub (c :: take j s)) eqn:E'; [|done].
      apply startswith_prefix in E'.
      assert (sub `prefix_of` c :: s); [|by apply startswith_prefix in H; congruence].
      etrans; [exact E'|]. apply prefix_cons, prefix_take.
Qed.

Lemma split_upto_pieces n sep : forall s b,
  sep <> [] -> (length s <= n)%nat ->
  b ∈ split_upto n sep s -> contains sep b = false.
Proof.
  induction n as [|n IH]; intros s b Hne Hn; cbn [split_upto].
  - destruct s; [|simpl in Hn; lia]. intros ->%list_elem_of_singleton.
    rewrite contains_eq. destruct sep; [done | reflexivity].
  - destruct (find sep s) as [i|] eqn:F.
    + intros [->|Hb]%elem_of_cons.
      * by apply find_take_none.
      * apply (IH _ _ Hne) in Hb; [done|].
        pose proof (find_Some_length _ _ _ F).
        assert (0 < length sep)%nat by (destruct sep; [done | simpl; lia]).
        rewrite length_drop. lia.
    + intros ->%list_elem_of_singleton. by apply find_None.
Qed.

Lemma split_pieces sep s b :
  sep <> [] -> b ∈ split sep s -> contains sep b = false.
Proof. intros Hne. by apply split_upto_pieces. Qed.

Lemma tail_subset {A : Type} (l : list A) (x : A) : x ∈ tail l -> x ∈ l.
Proof. destruct l; [done|]. simpl. intros H. apply elem_of_cons. by right. Qed.

Lemma first_line_in_split (block : str) : first_line block ∈ split nl block.
Proof.
  unfold first_line, split.
  destruct (split_upto_cons (length block) nl block) as (b & bs & ->).
  apply elem_of_cons. by left.
Qed.

(** A text that does not contain the one-character string [[c]] has no [c]
    among its characters. *)
Lemma contains_char_none (c : ascii) s :
  contains [c] s = false -> forallb (none_of [c]) s = true.
Proof.
  induction s as [|x s IH]; [done|].
  rewrite contains_eq. intros [H1 H2]%orb_false_iff.
  cbn [forallb]. rewrite (IH H2), andb_true_r.
  unfold none_of. cbn [existsb]. rewrite orb_false_r.
  simpl in H1. rewrite andb_true_r in H1. unfold ch_eqb in *.
  by rewrite Ascii.eqb_sym, H1.
Qed.

Lemma first_line_no_newline (block : str) :
  forallb (none_of nl) (first_line block) = true.
Proof.
  apply contains_char_none, (split_pieces nl block); [done|].
  apply first_line_in_split.
Qed.

End Pieces.

(** X4. [total_hosts] is 0 after a run exactly when the marker
    ["Nmap scan report for "] does not occur in the report. *)
Theorem total_hosts_zero_iff_no_marker (content : str) (self : NmapParser) :
  total_hosts (fst (parse (Returns content) self)) = 0
  <-> contains marker content = false.
Proof.
  rewrite parse_total_hosts.
  unfold blocks_of. split.
  - intros H. destruct (contains marker content) eqn:E; [exfalso|done].
    destruct (find marker content) as [i|] eqn:F;
      [|apply find_None in F; congruence].
    rewrite (split_first _ _ _ marker_nonempty F) in H. cbn [tail] in H.
    unfold split in H.
    destruct (split_upto_cons (length (drop (i + length marker) content)) marker
                (drop (i + length marker) content)) as (b & bs & Hs).
    rewrite Hs in H. simpl in H. lia.
  - intros H. unfold split. by rewrite (split_upto_none _ _ _ H).
Qed.

(** X5. No host block of a report contains the marker: every block is
    the text of one host. *)
Theorem blocks_hold_no_marker (content : str) (host_block : str) :
  host_block ∈ blocks_of content -> contains marker host_block = false.
Proof.
  intros H. apply (split_pieces marker content); [done|]. by apply tail_subset.
Qed.

Lemma blocks_hold_no_marker_witness :
  sample_dc_block ∈ blocks_of (s{"Starting Nmap"} ++ nl ++ marker ++ sample_dc_block)
  /\ contains marker sample_dc_block = false.
Proof.
  assert (H : sample_dc_block ∈
              blocks_of (s{"Starting Nmap"} ++ nl ++ marker ++ sample_dc_block)).
  { apply list_elem_of_In. vm_compute. by left. }
  split; [exact H|].
  exact (blocks_hold_no_marker _ _ H).
Defined.

(* ===================================================================== *)
(** ** The records *)
(* ===================================================================== *)

Section Records.

Implicit Types (b : str) (dc : DomainController).

(** What a record is made of. *)
Lemma record_of_Some b dc :
  record_of b = Some dc ->
  exists m,
    search Pat.ip (first_line b) = Some m
    /\ port_seen b 88 = true
    /\ (port_seen b 389 = true \/ port_seen b 636 = true)
    /\ dc = mkDC (group1 m) (hostname_of (first_line b) (group1 m))
                 (_extract_domain b) (_extract_netbios b)
                 (List.filter (port_seen b) (fst <$> AD_PORTS))
                 (snd <$> List.filter (fun e => port_seen b (fst e)) AD_PORTS).
Proof.
  unfold record_of.
  destruct (search Pat.ip (first_line b)) as [m|] eqn:E;
    [|by rewrite (parse_host_no_ip _ _ E)].
  rewrite (parse_host_ip _ _ _ E), check_domain_controller_spec.
  destruct (port_seen b 88 && _) eqn:Q; [|done]. cbv zeta. cbn [snd].
  intros [= <-]. exists m.
  apply andb_true_iff in Q as [Q1 Q2]. apply orb_true_iff in Q2.
  rewrite <- (filter_fst_fmap (port_seen b)). done.
Qed.

Lemma ip_match_shape (line : str) (m : result) :
  search Pat.ip line = Some m ->
  exists a b c d : str,
    group1 m = a ++ s{"."} ++ b ++ s{"."} ++ c ++ s{"."} ++ d
    /\ a <> [] /\ b <> [] /\ c <> [] /\ d <> []
    /\ forallb is_digit a = true /\ forallb is_digit b = true
    /\ forallb is_digit c = true /\ forallb is_digit d = true
    /\ contains (group1 m) line = true.
Proof.
  intros H. apply search_sound in H as (pre & t & Hline & D).
  unfold Pat.ip in D. cbn [denotes] in D.
  destruct D as [[g0 D] Hg].
  destruct D as (a & r1 & g1 & -> & (Ha1 & Ha2 & _) & D).
  destruct D as (p1 & r2 & g2 & -> & ((y1 & -> & Hy1) & _) & D).
  destruct D as (b & r3 & g3 & -> & (Hb1 & Hb2 & _) & D).
  destruct D as (p2 & r4 & g4 & -> & ((y2 & -> & Hy2) & _) & D).
  destruct D as (c & r5 & g5 & -> & (Hc1 & Hc2 & _) & D).
  destruct D as (p3 & d & g6 & -> & ((y3 & -> & Hy3) & _) & (Hd1 & Hd2 & _)).
  apply Ascii.eqb_eq in Hy1, Hy2, Hy3. subst y1 y2 y3.
  unfold group1. rewrite Hg. cbn [default].
  exists a, b, c, d. repeat split; try done.
  apply contains_spec. eauto.
Qed.

Lemma forallb_take_while (p : ascii -> bool) (s : str) :
  forallb p (take_while p s) = true.
Proof.
  induction s as [|c s IH]; [done|]. simpl.
  destruct (p c) eqn:E; [|done]. simpl. by rewrite E.
Qed.

Lemma forallb_take_while_of (p q : ascii -> bool) (s : str) :
  forallb q s = true -> forallb q (take_while p s) = true.
Proof.
  induction s as [|c s IH]; [done|]. simpl.
  intros [H1 H2]%andb_true_iff. destruct (p c); [|done].
  simpl. by rewrite H1, IH.
Qed.

Lemma digit_or_dot_plain (c : ascii) :
  is_digit c || ch_eqb c "." = true ->
  none_of s{"("} c = true /\ none_of nl c = true /\ negb (is_space c) = true.
Proof. destruct c as [[] [] [] [] [] [] [] []]; vm_compute; intuition congruence. Qed.

Lemma ip_match_chars (line : str) (m : result) :
  search Pat.ip line = Some m ->
  forallb (fun c => is_digit c || ch_eqb c ".") (group1 m) = true.
Proof.
  intros H.
  destruct (ip_match_shape _ _ H) as (a & b & c & d & -> & _ & _ & _ & _ & Ha & Hb & Hc & Hd & _).
  assert (Hdig : forall t, forallb is_digit t = true ->
                           forallb (fun c => is_digit c || ch_eqb c ".") t = true).
  { intros t. apply forallb_impl. by intros ? ->. }
  rewrite !forallb_app, (Hdig a), (Hdig b), (Hdig c), (Hdig d) by done. reflexivity.
Qed.

End Records.

(** X6. Every record qualifies and is well formed: its ports hold 88 and
    one of 389 and 636, its services are as many as its ports, and its
    address is not empty. *)
Theorem record_qualifies (host_block : str) (dc : DomainController) :
  record_of host_block = Some dc ->
  88 ∈ ports dc
  /\ (389 ∈ ports dc \/ 636 ∈ ports dc)
  /\ length (services dc) = length (ports dc)
  /\ ip dc <> [].
Proof.
  intros H. apply record_of_Some in H as (m & E & Q1 & Q2 & ->).
  cbn [ports services ip].
  assert (Hin : forall port, In port (fst <$> AD_PORTS) -> port_seen host_block port = true ->
                port ∈ List.filter (port_seen host_block) (fst <$> AD_PORTS)).
  { intros port ? ?. by apply list_elem_of_In, filter_In. }
  split; [apply Hin; [simpl; tauto | done]|].
  split; [destruct Q2; [left | right]; (apply Hin; [simpl; tauto | done])|].
  split.
  - rewrite <- (filter_fst_fmap (port_seen host_block)). by rewrite !length_fmap.
  - destruct (ip_group_nonempty _ _ E) as (c & t & ->). done.
Qed.

Lemma record_qualifies_witness :
  exists dc, record_of sample_dc_block = Some dc /\ 88 ∈ ports dc.
Proof.
  assert (H : record_of sample_dc_block =
              Some (mkDC s{"10.0.0.5"} s{"dc01.corp.local"} None None [88; 389]
                         [s{"Kerberos"}; s{"LDAP"}]))
    by (vm_compute; reflexivity).
  eexists. split; [exact H|].
  exact (proj1 (record_qualifies _ _ H)).
Defined.

(** X7. The address of every record is four non-empty runs of digits
    separated by dots, and it occurs in the first line of its block; the
    value of the runs is not checked. *)
Theorem record_ip_dotted_quad (host_block : str) (dc : DomainController) :
  record_of host_block = Some dc ->
  exists a b c d : str,
    ip dc = a ++ s{"."} ++ b ++ s{"."} ++ c ++ s{"."} ++ d
    /\ a <> [] /\ b <> [] /\ c <> [] /\ d <> []
    /\ forallb is_digit a = true /\ forallb is_digit b = true
    /\ forallb is_digit c = true /\ forallb is_digit d = true
    /\ contains (ip dc) (first_line host_block) = true.
Proof.
  intros H. apply record_of_Some in H as (m & E & _ & _ & ->). cbn [ip].
  by apply ip_match_shape.
Qed.

Lemma record_ip_dotted_quad_witness :
  exists dc, record_of sample_dc_block = Some dc
             /\ contains (ip dc) (first_line sample_dc_block) = true.
Proof.
  assert (H : record_of sample_dc_block =
              Some (mkDC s{"10.0.0.5"} s{"dc01.corp.local"} None None [88; 389]
                         [s{"Kerberos"}; s{"LDAP"}]))
    by (vm_compute; reflexivity).
  eexists. split; [exact H|].
  destruct (record_ip_dotted_quad _ _ H) as (a & b & c & d & _ & _ & _ & _ & _ & _ & _ & _ & _ & Hc).
  exact Hc.
Defined.

(** X8. The hostname of every record holds no ["("] and no line break. *)
Theorem record_hostname_plain (host_block : str) (dc : DomainController) :
  record_of host_block = Some dc ->
  forallb (none_of s{"("}) (hostname dc) = true
  /\ forallb (none_of nl) (hostname dc) = true.
Proof.
  intros H. apply record_of_Some in H as (m & E & _ & _ & ->). cbn [hostname].
  unfold hostname_of, Pat.hostname. rewrite search_bol_run.
  destruct (take_while (none_of s{"("}) (first_line host_block)) as [|c name] eqn:T.
  - pose proof (ip_match_chars _ _ E) as Hc.
    split; revert Hc; apply forallb_impl; intros c Hc;
      apply digit_or_dot_plain in Hc as (? & ? & ?); done.
  - rewrite <- T. split; apply forallb_strip.
    + apply forallb_take_while.
    + apply forallb_take_while_of, first_line_no_newline.
Qed.

Lemma record_hostname_plain_witness :
  exists dc, record_of sample_dc_block = Some dc
             /\ forallb (none_of nl) (hostname dc) = true.
Proof.
  assert (H : record_of sample_dc_block =
              Some (mkDC s{"10.0.0.5"} s{"dc01.corp.local"} None None [88; 389]
                         [s{"Kerberos"}; s{"LDAP"}]))
    by (vm_compute; reflexivity).
  eexists. split; [exact H|].
  exact (proj2 (record_hostname_plain _ _ H)).
Defined.

Lemma lower_app (s t : str) : lower (s ++ t) = lower s ++ lower t.
Proof. apply map_app. Qed.

Lemma port_seen_embedded (pre block post : str) (port : Z) :
  port_seen block port = true -> port_seen (pre ++ block ++ post) port = true.
Proof.
  unfold port_seen. rewrite !lower_app, !contains_spec.
  intros (x & y & ->). exists (lower pre ++ x), (y ++ lower post).
  by rewrite <- !app_assoc.
Qed.

(** X9. Classification only ever looks for text: a block that qualifies
    still qualifies with any text put before and behind it. *)
Theorem classification_monotone (pre block post : str) :
  fst (fst (_check_domain_controller block)) = true ->
  fst (fst (_check_domain_controller (pre ++ block ++ post))) = true.
Proof.
  rewrite !check_domain_controller_spec. cbn [fst].
  rewrite !andb_true_iff, !orb_true_iff.
  intros [H1 H2]. split; [by apply port_seen_embedded|].
  destruct H2; [left | right]; by apply port_seen_embedded.
Qed.

Lemma classification_monotone_witness :
  fst (fst (_check_domain_controller
              (s{"Host is up."} ++ nl ++ sample_dc_block ++ s{"Service Info: OS: Windows"})))
  = true.
Proof.
  apply (classification_monotone (s{"Host is up."} ++ nl) sample_dc_block
           s{"Service Info: OS: Windows"}).
  vm_compute. reflexivity.
Defined.

(* ===================================================================== *)
(** ** What the extracted names are made of *)
(* ===================================================================== *)

Section Names.

Implicit Types (s t kw : str) (p q : ascii -> bool) (r : regex) (g : option str).

(** The group of a match of such a pattern is the non-empty end of the
    matched text, made of the class. *)
Lemma denotes_ends_in_group p r : forall t g g',
  ends_in_group p r -> denotes r t g g' ->
  exists t1 c tg, t = t1 ++ c :: tg /\ g' = Some (c :: tg) /\ forallb p (c :: tg) = true.
Proof.
  induction r as [| | |r1 _ r2 IH|r0 _|]; intros t g g' He D; try done.
  - cbn [ends_in_group denotes] in *.
    destruct D as (t1 & t2 & g1 & -> & _ & D).
    destruct (IH _ _ _ He D) as (u & c & tg & -> & -> & Hp).
    exists (t1 ++ u), c, tg. by rewrite <- app_assoc.
  - destruct r0; try done. cbn [ends_in_group denotes] in *. subst p0.
    destruct D as [[g0 (Hne & Hp & _)] ->].
    destruct t as [|c tg]; [done|]. by exists [], c, tg.
Qed.

Lemma search_group p r s (m : result) :
  ends_in_group p r -> search r s = Some m ->
  exists c tg, group1 m = c :: tg /\ forallb p (c :: tg) = true
               /\ exists pre post, s = pre ++ (c :: tg) ++ post.
Proof.
  intros He H. apply search_sound in H as (pre & t & -> & D).
  destruct (denotes_ends_in_group _ _ _ _ _ He D) as (t1 & c & tg & -> & Hg & Hp).
  exists c, tg. unfold group1. rewrite Hg. repeat split; [done|].
  exists (pre ++ t1), (fst m). by rewrite <- !app_assoc.
Qed.

(** Under IGNORECASE a literal matches a text that is the literal up to
    case. *)
Lemma denotes_lits_lower kw : forall t g g',
  kw <> [] -> denotes (lits true kw) t g g' -> lower t = lower kw.
Proof.
  induction kw as [|c kw IH]; intros t g g' Hne D; [done|].
  destruct kw as [|c' kw].
  - cbn in D. destruct D as [(x & -> & Hx) _].
    apply Ascii.eqb_eq in Hx. cbn. by rewrite Hx.
  - cbn [lits denotes] in D.
    destruct D as (t1 & t2 & g1 & -> & D1 & D2).
    cbn in D1. destruct D1 as [(x & -> & Hx) _].
    apply Ascii.eqb_eq in Hx.
    rewrite (lower_app [x] t2). cbn [lower map app]. rewrite Hx. f_equal.
    by apply (IH t2 g1 g').
Qed.

(** A pattern that starts with a literal only matches where the literal
    occurs, up to case. *)
Lemma search_keyword kw r s (m : result) :
  kw <> [] -> search (lits true kw ⋅ r) s = Some m ->
  contains (lower kw) (lower s) = true.
Proof.
  intros Hne H. apply search_sound in H as (pre & t & -> & D).
  cbn [denotes] in D. destruct D as (t1 & t2 & g1 & -> & D1 & _).
  apply denotes_lits_lower in D1; [|done].
  apply contains_spec. exists (lower pre), (lower t2 ++ lower (fst m)).
  by rewrite !lower_app, D1, <- !app_assoc.
Qed.

Lemma search_no_keyword kw r s :
  kw <> [] -> contains (lower kw) (lower s) = false -> search (lits true kw ⋅ r) s = None.
Proof.
  intros Hne H. destruct (search (lits true kw ⋅ r) s) as [m|] eqn:E; [|done].
  apply search_keyword in E; [congruence | done].
Qed.

Lemma forallb_sub p (pre t post : str) :
  forallb p (pre ++ t ++ post) = true -> forallb p t = true.
Proof. rewrite !forallb_app. by intros [_ [? _]%andb_true_iff]%andb_true_iff. Qed.

(** The group texts [findall] returns are pieces of the subject. *)
Lemma findall_from_forallb q p r n : forall s skip part,
  ends_in_group p r -> forallb q s = true ->
  part ∈ findall_from n r skip s -> forallb q part = true.
Proof.
  assert (Hm : forall s rest g, ends_in_group p r -> forallb q s = true ->
                 rmatch n r s None accept = Some (rest, g) ->
                 forallb q (default [] g) = true).
  { intros s rest g He Hq H.
    apply rmatch_sound in H as (t & s' & g' & -> & D & [= <- <-]).
    destruct (denotes_ends_in_group _ _ _ _ _ He D) as (t1 & c & tg & -> & -> & _).
    cbn [default]. rewrite <- app_assoc in Hq. by apply forallb_sub in Hq. }
  induction s as [|c s IH]; intros skip part He Hq.
  - destruct skip; cbn [findall_from]; [|by intros ?%elem_of_nil].
    destruct (rmatch n r [] None accept) as [[rest g]|] eqn:E;
      [|by intros ?%elem_of_nil].
    intros [->|?%elem_of_nil]%elem_of_cons; [|done]. by apply (Hm _ _ _ He Hq E).
  - assert (Hq' : forallb q s = true) by (simpl in Hq; by apply andb_true_iff in Hq as [_ ?]).
    destruct skip; cbn [findall_from]; [|by apply IH].
    destruct (rmatch n r (c :: s) None accept) as [[rest g]|] eqn:E; [|by apply IH].
    intros [->|H]%elem_of_cons; [by apply (Hm _ _ _ He Hq E) | by apply IH in H].
Qed.

(** [value.split('.')[1:]] joined again is an end of [value]. *)
Lemma join_tail_split_suffix (sep s : str) :
  exists pre, s = pre ++ join sep (tail (split sep s)).
Proof.
  pose proof (join_split sep s) as H. unfold split in *.
  destruct (split_upto_cons (length s) sep s) as (b & bs & E). rewrite E in *.
  cbn [tail]. destruct bs as [|b' bs'].
  - exists s. by rewrite app_nil_r.
  - exists (b ++ sep). rewrite <- app_assoc. by rewrite <- H.
Qed.

Lemma class_no_newline (c : ascii) :
  alnum_or s{"-."} c = true -> none_of nl c = true.
Proof. destruct c as [[] [] [] [] [] [] [] []]; vm_compute; congruence. Qed.

Lemma comma_class_no_newline (c : ascii) :
  none_of (nl ++ s{","}) c = true -> none_of nl c = true.
Proof. destruct c as [[] [] [] [] [] [] [] []]; vm_compute; congruence. Qed.

Lemma netbios_class (c : ascii) :
  alnum_or s{"-"} c = true ->
  negb (is_space c) = true /\ netbios_char (upper_char c) = true.
Proof. destruct c as [[] [] [] [] [] [] [] []]; vm_compute; intuition congruence. Qed.

Lemma forallb_map (q : ascii -> bool) (f : ascii -> ascii) s :
  forallb q (map f s) = forallb (fun c => q (f c)) s.
Proof. induction s as [|c s IH]; [done|]. simpl. by rewrite IH. Qed.

Lemma method1_chars (block d : str) :
  domain_method1 block = Some d -> d <> [] /\ forallb (alnum_or s{"-."}) d = true.
Proof.
  unfold domain_method1.
  destruct (search Pat.domain block) as [m|] eqn:E; [|done]. intros [= <-].
  destruct (search_group (alnum_or s{"-."}) Pat.domain _ _ eq_refl E) as (c & tg & Hg & Hp & _).
  rewrite Hg, strip_id; [done|]. revert Hp. apply forallb_impl, alnum_or_not_space.
Qed.

Lemma method4_chars (block d : str) :
  domain_method4 block = Some d -> d <> [] /\ forallb (alnum_or s{"-."}) d = true.
Proof.
  unfold domain_method4.
  destruct (search Pat.forest block) as [m|] eqn:E; [|done]. intros [= <-].
  destruct (search_group (alnum_or s{"-."}) Pat.forest _ _ eq_refl E) as (c & tg & Hg & Hp & _).
  rewrite Hg, strip_id; [done|]. revert Hp. apply forallb_impl, alnum_or_not_space.
Qed.

Lemma method2_no_newline (block d : str) :
  domain_method2 block = Some d -> forallb (none_of nl) d = true.
Proof.
  intros H. destruct (naming_context_single_component _ _ H) as (m & E & F).
  destruct (search_group (none_of (nl ++ s{","})) Pat.naming_context _ _ eq_refl E)
    as (c & tg & Hg & Hp & _).
  apply (findall_from_forallb (none_of nl) (none_of s{","}) Pat.dc_part
           (length (strip (group1 m))) (strip (group1 m)) 0%nat d eq_refl).
  - apply forallb_strip. rewrite Hg. revert Hp. apply forallb_impl, comma_class_no_newline.
  - fold (findall Pat.dc_part (strip (group1 m))). rewrite F. by apply list_elem_of_singleton.
Qed.

Lemma method3_no_newline (block d : str) :
  domain_method3 block = Some d -> forallb (none_of nl) d = true.
Proof.
  unfold domain_method3.
  destruct (search Pat.dns_hostname block) as [m|] eqn:E; [|done]. cbv zeta.
  destruct (contains s{"."} (strip (group1 m))); [|done]. intros [= <-].
  destruct (search_group (none_of nl) Pat.dns_hostname _ _ eq_refl E) as (c & tg & Hg & Hp & _).
  destruct (join_tail_split_suffix s{"."} (strip (group1 m))) as (pre & Hs).
  assert (Hf : forallb (none_of nl) (strip (group1 m)) = true)
    by (apply forallb_strip; by rewrite Hg).
  rewrite Hs in Hf. by apply forallb_app_r in Hf.
Qed.

End Names.

(** X10. Whatever [_extract_domain] returns holds no line break. *)
Theorem extract_domain_single_line (block d : str) :
  _extract_domain block = Some d -> forallb (none_of nl) d = true.
Proof.
  unfold _extract_domain.
  destruct (domain_method1 block) as [d1|] eqn:E1.
  { intros [= <-]. apply method1_chars in E1 as [_ H].
    revert H. apply forallb_impl, class_no_newline. }
  destruct (domain_method2 block) as [d2|] eqn:E2.
  { intros [= <-]. by apply method2_no_newline in E2. }
  destruct (domain_method3 block) as [d3|] eqn:E3.
  { intros [= <-]. by apply method3_no_newline in E3. }
  intros E4. apply method4_chars in E4 as [_ H].
  revert H. apply forallb_impl, class_no_newline.
Qed.

Lemma extract_domain_single_line_witness :
  _extract_domain sample_dns_name_block = Some s{"corp.local"}
  /\ forallb (none_of nl) s{"corp.local"} = true.
Proof.
  assert (H : _extract_domain sample_dns_name_block = Some s{"corp.local"})
    by (vm_compute; reflexivity).
  split; [exact H|]. exact (extract_domain_single_line _ _ H).
Defined.

Lemma class_ascii_plain (c : ascii) :
  alnum_or s{"-."} c = true ->
  negb (is_space c) = true /\ implb (is_ascii c) (alnum_or s{"-."} c) = true.
Proof. destruct c as [[] [] [] [] [] [] [] []]; vm_compute; intuition congruence. Qed.

Lemma netbios_char_plain (c : ascii) :
  netbios_char c = true ->
  negb (is_space c) = true /\ implb (is_ascii c) (netbios_char c) = true.
Proof. destruct c as [[] [] [] [] [] [] [] []]; vm_compute; intuition congruence. Qed.

(** A text that lacks a part of a keyword lacks the keyword. *)
Lemma contains_part (a b c s : str) :
  contains b s = false -> contains (a ++ b ++ c) s = false.
Proof.
  intros H. destruct (contains (a ++ b ++ c) s) eqn:E; [|done].
  rewrite <- H. symmetry. apply contains_spec.
  apply contains_spec in E as (pre & post & ->).
  exists (pre ++ a), (c ++ post). by rewrite <- !app_assoc.
Qed.

(** X11. A domain taken from a [Domain:] label or from a [forest] label is
    not empty, holds no whitespace, and the only ASCII characters in it are
    letters, digits, hyphens and dots. *)
Theorem domain_label_charset (block d : str) :
  domain_method1 block = Some d \/
  (domain_method1 block = None /\ domain_method2 block = None /\
   domain_method3 block = None /\ domain_method4 block = Some d) ->
  _extract_domain block = Some d
  /\ d <> []
  /\ forallb (fun c => negb (is_space c)) d = true
  /\ forallb (fun c => implb (is_ascii c) (alnum_or s{"-."} c)) d = true.
Proof.
  assert (Hc : forallb (alnum_or s{"-."}) d = true ->
               forallb (fun c => negb (is_space c)) d = true
               /\ forallb (fun c => implb (is_ascii c) (alnum_or s{"-."} c)) d = true).
  { intros H. split; revert H; apply forallb_impl; intros c Hx;
      by apply class_ascii_plain in Hx as [? ?]. }
  unfold _extract_domain. intros [H|(H1 & H2 & H3 & H4)].
  - rewrite H. split; [done|]. apply method1_chars in H as [? ?]. split; [done|]. by apply Hc.
  - rewrite H1, H2, H3. split; [done|].
    apply method4_chars in H4 as [? ?]. split; [done|]. by apply Hc.
Qed.

Lemma domain_label_charset_witness :
  _extract_domain sample_two_domains_block = Some s{"corp.local"}.
Proof.
  apply (domain_label_charset sample_two_domains_block s{"corp.local"}).
  left. vm_compute. reflexivity.
Defined.

(** X12. A block whose lowercased text holds none of [doma],
    [defaultnam], [_computer_name:] and [fore] has no domain.  These are
    parts of the four keywords made of letters that IGNORECASE matches in
    their two ASCII cases only. *)
Theorem extract_domain_needs_keyword (block : str) :
  contains s{"doma"} (lower block) = false ->
  contains s{"defaultnam"} (lower block) = false ->
  contains s{"_computer_name:"} (lower block) = false ->
  contains s{"fore"} (lower block) = false ->
  _extract_domain block = None.
Proof.
  intros H1 H2 H3 H4.
  apply (contains_part [] _ s{"in:"}) in H1.
  apply (contains_part [] _ s{"ingcontext"}) in H2.
  apply (contains_part s{"dns"} _ []) in H3.
  apply (contains_part [] _ s{"st"}) in H4.
  unfold _extract_domain, domain_method1, domain_method2, domain_method3, domain_method4.
  unfold Pat.domain, Pat.naming_context, Pat.dns_hostname, Pat.forest.
  rewrite (search_no_keyword s{"Domain:"}) by done.
  rewrite (search_no_keyword s{"defaultNamingContext"}) by done.
  rewrite (search_no_keyword s{"dns_computer_name:"}) by done.
  by rewrite (search_no_keyword s{"forest"}) by done.
Qed.

Lemma extract_domain_needs_keyword_witness : _extract_domain sample_dc_block = None.
Proof. apply extract_domain_needs_keyword; vm_compute; reflexivity. Defined.

(** X13. Whatever [_extract_netbios] returns is not empty, holds no
    whitespace, and the only ASCII characters in it are capital letters,
    digits and hyphens. *)
Theorem extract_netbios_charset (block n : str) :
  _extract_netbios block = Some n ->
  n <> []
  /\ forallb (fun c => negb (is_space c)) n = true
  /\ forallb (fun c => implb (is_ascii c) (netbios_char c)) n = true.
Proof.
  assert (Hg : forall r m, ends_in_group (alnum_or s{"-"}) r -> search r block = Some m ->
                 upper (strip (group1 m)) <> [] /\
                 forallb netbios_char (upper (strip (group1 m))) = true).
  { intros r m He E.
    destruct (search_group _ _ _ _ He E) as (c & tg & -> & Hp & _).
    rewrite strip_id
      by (revert Hp; apply forallb_impl; intros x Hx; by apply netbios_class in Hx as [? _]).
    split; [done|]. unfold upper. rewrite forallb_map.
    revert Hp. apply forallb_impl. intros x Hx. by apply netbios_class in Hx as [_ ?]. }
  assert (Hc : forall t, t <> [] /\ forallb netbios_char t = true ->
                 t <> []
                 /\ forallb (fun c => negb (is_space c)) t = true
                 /\ forallb (fun c => implb (is_ascii c) (netbios_char c)) t = true).
  { intros t [Hne H]. split; [done|]. split; revert H; apply forallb_impl; intros c Hx;
      by apply netbios_char_plain in Hx as [? ?]. }
  unfold _extract_netbios.
  destruct (search Pat.netbios block) as [m|] eqn:E1.
  { intros [= <-]. by apply Hc, (Hg Pat.netbios m eq_refl). }
  destruct (search Pat.netbios_computer block) as [m|] eqn:E2; [|done].
  intros [= <-]. by apply Hc, (Hg Pat.netbios_computer m eq_refl).
Qed.

Lemma extract_netbios_charset_witness :
  _extract_netbios (s{"|   NetBIOS computer name: dc01"} ++ nl) = Some s{"DC01"}
  /\ forallb (fun c => implb (is_ascii c) (netbios_char c)) s{"DC01"} = true.
Proof.
  assert (H : _extract_netbios (s{"|   NetBIOS computer name: dc01"} ++ nl) = Some s{"DC01"})
    by (vm_compute; reflexivity).
  split; [exact H|]. exact (proj2 (proj2 (extract_netbios_charset _ _ H))).
Defined.

(** X14. A block whose lowercased text does not hold [netb] has no
    NetBIOS name; [netb] is the part of the keyword made of letters that
    IGNORECASE matches in their two ASCII cases only. *)
Theorem extract_netbios_needs_keyword (block : str) :
  contains s{"netb"} (lower block) = false -> _extract_netbios block = None.
Proof.
  intros H. apply (contains_part [] _ s{"ios"}) in H.
  unfold _extract_netbios, Pat.netbios, Pat.netbios_computer.
  by rewrite !(search_no_keyword s{"NetBIOS"}) by done.
Qed.

Lemma extract_netbios_needs_keyword_witness : _extract_netbios sample_dc_block = None.
Proof. apply extract_netbios_needs_keyword. vm_compute. reflexivity. Defined.

(* ===================================================================== *)
(** ** The generated commands *)
(* ===================================================================== *)

Section Grouping.

Implicit Types (k : str) (dc : DomainController)
  (m : list (str * list DomainController)) (l dcs : list DomainController).

Lemma dict_set_cons_ne {V : Type} k k' (v v' : V) (d : list (str * V)) :
  k' <> k -> dict_set k v ((k', v') :: d) = (k', v') :: dict_set k v d.
Proof. intros H. cbn [dict_set]. by rewrite bool_decide_eq_false_2. Qed.

Lemma dict_get_cons_ne {V : Type} k k' (v' : V) (d : list (str * V)) :
  k' <> k -> dict_get k ((k', v') :: d) = dict_get k d.
Proof. intros H. cbn [dict_get]. by rewrite bool_decide_eq_false_2. Qed.

(** The dict operations of the grouping loop amount to [group_add]. *)
Lemma group_step_add m dc : group_step m dc = group_add (domain_or_unknown dc) dc m.
Proof.
  unfold group_step. set (k := domain_or_unknown dc). clearbody k.
  induction m as [|[k' l] m IH].
  - unfold dict_mem. cbn. by rewrite !bool_decide_eq_true_2.
  - destruct (decide (k' = k)) as [->|Hne].
    + unfold dict_mem. cbn [dict_get group_add].
      rewrite !bool_decide_eq_true_2 by done. cbn [negb dict_get dict_set].
      rewrite !bool_decide_eq_true_2 by done. done.
    + cbn [group_add]. rewrite bool_decide_eq_false_2 by done.
      unfold dict_mem in *. rewrite (dict_get_cons_ne _ _ _ _ Hne).
      destruct (dict_get k m) as [v|] eqn:G; cbn [negb] in *.
      * rewrite (dict_get_cons_ne _ _ _ _ Hne), G in *.
        rewrite (dict_set_cons_ne _ _ _ _ _ Hne). by rewrite IH.
      * rewrite (dict_set_cons_ne _ _ _ _ _ Hne), (dict_get_cons_ne _ _ _ _ Hne).
        rewrite (dict_set_cons_ne _ _ _ _ _ Hne). by rewrite IH.
Qed.

Lemma group_add_keys k dc m :
  (group_add k dc m).*1 = if bool_decide (k ∈ m.*1) then m.*1 else m.*1 ++ [k].
Proof.
  induction m as [|[k' l] m IH]; [done|]. cbn [group_add].
  destruct (decide (k' = k)) as [->|Hne].
  - rewrite bool_decide_eq_true_2 by done. cbn.
    rewrite bool_decide_eq_true_2; [done|]. apply elem_of_cons. by left.
  - rewrite bool_decide_eq_false_2 by done. cbn. rewrite IH.
    destruct (decide (k ∈ m.*1)) as [Hin|Hin].
    + rewrite !bool_decide_eq_true_2; [done | | done]. apply elem_of_cons. by right.
    + rewrite !bool_decide_eq_false_2; [done | | done].
      intros [?|?]%elem_of_cons; congruence.
Qed.

Lemma group_add_concat k dc m :
  concat (group_add k dc m).*2 ≡ₚ concat m.*2 ++ [dc].
Proof.
  induction m as [|[k' l] m IH]; [done|]. cbn [group_add].
  destruct (bool_decide (k' = k)); cbn.
  - rewrite <- !app_assoc. apply Permutation_app_head, Permutation_app_comm.
  - rewrite IH. by rewrite app_assoc.
Qed.

Lemma group_add_keyed dc m : keyed m -> keyed (group_add (domain_or_unknown dc) dc m).
Proof.
  induction m as [|[k' l] m IH]; intros Hk k0 l0 dc0.
  - cbn [group_add].
    intros [= -> ->]%list_elem_of_singleton ->%list_elem_of_singleton. done.
  - cbn [group_add]. destruct (decide (k' = domain_or_unknown dc)) as [->|Hne].
    + rewrite bool_decide_eq_true_2 by done.
      intros [[= -> ->]|Hin]%elem_of_cons.
      * intros [?| ->%list_elem_of_singleton]%elem_of_app; [|done].
        apply (Hk _ l); [apply elem_of_cons; by left | done].
      * apply Hk. apply elem_of_cons. by right.
    + rewrite bool_decide_eq_false_2 by done.
      intros [[= -> ->]|Hin]%elem_of_cons.
      * apply Hk. apply elem_of_cons. by left.
      * apply IH; [|done]. intros ? ? ? ?. apply Hk. apply elem_of_cons. by right.
Qed.

Lemma filter_keyed_other k m :
  keyed m -> k ∉ m.*1 -> List.filter (same_domain k) (concat m.*2) = [].
Proof.
  induction m as [|[k' l] m IH]; intros Hk Hn; [done|].
  cbn. rewrite List.filter_app, IH.
  - rewrite app_nil_r.
    assert (Hl : forall dc, dc ∈ l -> domain_or_unknown dc = k')
      by (intros dc; apply (Hk k' l); apply elem_of_cons; by left).
    assert (k' <> k) by (intros ->; apply Hn; cbn; apply elem_of_cons; by left).
    clear -Hl H. induction l as [|dc l IHl]; [done|]. cbn.
    unfold same_domain at 1. rewrite bool_decide_eq_false_2.
    + apply IHl. intros ? ?. apply Hl. apply elem_of_cons. by right.
    + rewrite (Hl dc); [done|]. apply elem_of_cons. by left.
  - intros ? ? ? ?. apply Hk. apply elem_of_cons. by right.
  - intros ?. apply Hn. cbn. apply elem_of_cons. by right.
Qed.

Lemma filter_keyed_own k l :
  (forall dc, dc ∈ l -> domain_or_unknown dc = k) -> List.filter (same_domain k) l = l.
Proof.
  induction l as [|dc l IH]; intros H; [done|]. cbn.
  unfold same_domain at 1. rewrite bool_decide_eq_true_2.
  - f_equal. apply IH. intros ? ?. apply H. apply elem_of_cons. by right.
  - apply H. apply elem_of_cons. by left.
Qed.

(** The records of one group are those of its key, whatever the other
    groups hold. *)
Lemma filter_group k l m :
  keyed m -> NoDup m.*1 -> (k, l) ∈ m ->
  List.filter (same_domain k) (concat m.*2) = l.
Proof.
  induction m as [|[k' l'] m IH]; intros Hk Hnd Hin; [by apply elem_of_nil in Hin|].
  cbn in Hnd. apply NoDup_cons in Hnd as [Hn Hnd].
  assert (Hk' : keyed m) by (intros ? ? ? ?; apply Hk; apply elem_of_cons; by right).
  cbn. rewrite List.filter_app.
  apply elem_of_cons in Hin as [[= -> ->]|Hin].
  - rewrite (filter_keyed_other _ _ Hk' Hn), app_nil_r.
    apply filter_keyed_own. intros dc. apply (Hk k' l'). apply elem_of_cons. by left.
  - rewrite (IH Hk' Hnd Hin).
    assert (k' <> k).
    { intros ->. apply Hn. apply list_elem_of_fmap. by exists (k, l). }
    assert (Hl : forall dc, dc ∈ l' -> domain_or_unknown dc = k')
      by (intros dc; apply (Hk k' l'); apply elem_of_cons; by left).
    replace (List.filter (same_domain k) l') with (@nil DomainController); [done|].
    symmetry. clear -Hl H. induction l' as [|dc l' IHl]; [done|]. cbn.
    unfold same_domain at 1. rewrite bool_decide_eq_false_2.
    + apply IHl. intros ? ?. apply Hl. apply elem_of_cons. by right.
    + rewrite (Hl dc); [done|]. apply elem_of_cons. by left.
Qed.

Lemma filter_single_ne k dc :
  domain_or_unknown dc <> k -> List.filter (same_domain k) [dc] = [].
Proof. intros H. cbn [List.filter]. unfold same_domain. by rewrite bool_decide_eq_false_2. Qed.

Lemma group_add_filter k dc m :
  keyed m -> NoDup m.*1 ->
  List.filter (same_domain k) (concat (group_add (domain_or_unknown dc) dc m).*2) =
  List.filter (same_domain k) (concat m.*2 ++ [dc]).
Proof.
  induction m as [|[k' l] m IH]; intros Hk Hnd; [done|].
  cbn in Hnd. apply NoDup_cons in Hnd as [Hn Hnd].
  assert (Hk' : keyed m) by (intros ? ? ? ?; apply Hk; apply elem_of_cons; by right).
  cbn [group_add]. destruct (decide (k' = domain_or_unknown dc)) as [->|Hne].
  - rewrite bool_decide_eq_true_2 by done. rewrite !fmap_cons. cbn [snd concat].
    rewrite <- !app_assoc, !List.filter_app.
    destruct (decide (domain_or_unknown dc = k)) as [<-|Hne].
    + rewrite (filter_keyed_other _ _ Hk' Hn). by rewrite app_nil_r.
    + rewrite (filter_single_ne _ _ Hne). by rewrite app_nil_r.
  - rewrite bool_decide_eq_false_2 by done. rewrite !fmap_cons. cbn [snd concat].
    rewrite <- !app_assoc, !List.filter_app. f_equal.
    rewrite (IH Hk' Hnd). by rewrite List.filter_app.
Qed.

(** The grouping loop, by what it has built after any number of records. *)
Lemma grouping_invariant dcs :
  let m := fold_left group_step dcs [] in
  keyed m /\ NoDup m.*1 /\ concat m.*2 ≡ₚ dcs
  /\ forall k, List.filter (same_domain k) (concat m.*2) = List.filter (same_domain k) dcs.
Proof.
  induction dcs as [|dc dcs IH] using rev_ind.
  - cbn. split; [|split; [apply NoDup_nil_2 | done]].
    intros ? ? ? H. by apply elem_of_nil in H.
  - rewrite fold_left_app. cbn [fold_left]. cbv zeta in *.
    destruct IH as (Hk & Hnd & Hp & Hf). rewrite group_step_add.
    split; [by apply group_add_keyed|]. split; [|split].
    + rewrite group_add_keys. case_bool_decide; [done|].
      apply NoDup_app. split; [done|]. split; [|apply NoDup_singleton].
      intros x Hx ->%list_elem_of_singleton. done.
    + rewrite group_add_concat. by rewrite Hp.
    + intros k. rewrite (group_add_filter _ _ _ Hk Hnd).
      by rewrite !List.filter_app, Hf.
Qed.

End Grouping.

Section Commands.

Variable set_order : gset str -> list str.
Variables (parser : NmapParser) (username password : str) (use_domain_prefix : bool).

Lemma commands_records (m : list (str * list DomainController)) :
  map cmd_dc
    (concat (map (group_commands set_order parser username password use_domain_prefix) m))
  = concat m.*2.
Proof.
  induction m as [|[k l] m IH]; [done|].
  cbn [map concat]. rewrite map_app, IH, fmap_cons. cbn [snd concat]. f_equal.
  unfold group_commands. rewrite map_map. cbn [cmd_dc]. apply map_id.
Qed.

Lemma elem_of_commands (c : Command) :
  c ∈ generate_all_commands set_order parser username password use_domain_prefix ->
  exists k l dc,
    (k, l) ∈ fold_left group_step (domain_controllers parser) [] /\ dc ∈ l
    /\ c = mkCommand dc
             (generate_command dc username password k use_domain_prefix
                (group_netbios set_order parser l))
             k (group_netbios set_order parser l).
Proof.
  unfold generate_all_commands.
  intros H. apply list_elem_of_In, in_concat in H as (cs & Hcs & Hc).
  apply in_map_iff in Hcs as ([k l] & <- & Hkl).
  unfold group_commands in Hc. apply in_map_iff in Hc as (dc & <- & Hdc).
  exists k, l, dc. by rewrite !list_elem_of_In.
Qed.

(** All that holds of one command. *)
Lemma command_inv (c : Command) :
  c ∈ generate_all_commands set_order parser username password use_domain_prefix ->
  cmd_dc c ∈ domain_controllers parser
  /\ cmd_domain c = domain_or_unknown (cmd_dc c)
  /\ cmd_command c =
       generate_command (cmd_dc c) username password (cmd_domain c)
         use_domain_prefix (cmd_netbios c)
  /\ cmd_netbios c =
       group_netbios set_order parser
         (List.filter (same_domain (cmd_domain c)) (domain_controllers parser)).
Proof.
  intros H. apply elem_of_commands in H as (k & l & dc & Hkl & Hdc & ->).
  destruct (grouping_invariant (domain_controllers parser)) as (Hk & Hnd & Hp & Hf).
  cbn [cmd_dc cmd_domain cmd_command cmd_netbios].
  split; [|split; [|split]].
  - rewrite <- Hp. apply list_elem_of_In, in_concat. exists l.
    split; [|by apply list_elem_of_In].
    apply list_elem_of_In, list_elem_of_fmap. by exists (k, l).
  - symmetry. by apply (Hk k l).
  - done.
  - by rewrite <- Hf, (filter_group _ _ _ Hk Hnd Hkl).
Qed.

Lemma first_netbios_Some (l : list DomainController) (n : str) :
  first_netbios l = Some n -> n <> [] /\ exists dc, dc ∈ l /\ netbios dc = Some n.
Proof.
  induction l as [|dc l IH]; [done|]. cbn [first_netbios].
  destruct (truthy (netbios dc)) eqn:T.
  - intros H. rewrite H in T. split; [by destruct n|].
    exists dc. split; [apply elem_of_cons; by left | done].
  - intros H. destruct (IH H) as (Hn & dc' & Hin & Hd). split; [done|].
    exists dc'. split; [apply elem_of_cons; by right | done].
Qed.

Lemma group_netbios_first (l : list DomainController) (n : str) :
  first_netbios l = Some n -> group_netbios set_order parser l = Some n.
Proof.
  intros H. unfold group_netbios. rewrite H.
  apply first_netbios_Some in H as [Hn _]. by destruct n.
Qed.

Lemma group_netbios_Some (l : list DomainController) (n : str) :
  group_netbios set_order parser l = Some n ->
  first_netbios l = Some n \/ n ∈ set_order (netbios_domains parser).
Proof.
  unfold group_netbios.
  destruct (negb (truthy (first_netbios l)) && _); [|by left].
  intros H. right. destruct (set_order (netbios_domains parser)) as [|x xs]; [done|].
  injection H as ->. apply elem_of_cons. by left.
Qed.

End Commands.

(** X15. A command depends on the record only through its hostname: the
    [-dc] argument is the hostname whether or not it equals the address. *)
Theorem generate_command_hostname_only
    (dc1 dc2 : DomainController) (username password domain : str)
    (use_domain_prefix : bool) (netbios_domain : option str) :
  hostname dc1 = hostname dc2 ->
  generate_command dc1 username password domain use_domain_prefix netbios_domain =
  generate_command dc2 username password domain use_domain_prefix netbios_domain.
Proof.
  intros H. unfold generate_command.
  assert (Hh : forall dc, (if negb (bool_decide (hostname dc = ip dc))
                           then hostname dc else ip dc) = hostname dc).
  { intros dc. by case_bool_decide. }
  by rewrite !Hh, H.
Qed.

Lemma generate_command_hostname_only_witness :
  generate_command (mkDC s{"10.0.0.5"} s{"dc01"} None None [] [])
    s{"bob"} s{"pw"} s{"corp.local"} false None =
  generate_command (mkDC s{"10.9.9.9"} s{"dc01"} (Some s{"x"}) None [88] [])
    s{"bob"} s{"pw"} s{"corp.local"} false None.
Proof. by apply generate_command_hostname_only. Defined.

(** X16. [generate_all_commands] gives one command for every record of
    the parser: the records of the commands are the parser's records,
    rearranged. *)
Theorem commands_one_per_record
    (set_order : gset str -> list str) (parser : NmapParser)
    (username password : str) (use_domain_prefix : bool) :
  map cmd_dc (generate_all_commands set_order parser username password use_domain_prefix)
  ≡ₚ domain_controllers parser.
Proof.
  unfold generate_all_commands. rewrite commands_records.
  by destruct (grouping_invariant (domain_controllers parser)) as (_ & _ & Hp & _).
Qed.

(** X17. Within one domain the commands keep the order of the records:
    grouping by domain is stable. *)
Theorem commands_keep_order_within_domain
    (set_order : gset str -> list str) (parser : NmapParser)
    (username password : str) (use_domain_prefix : bool) (k : str) :
  List.filter (same_domain k)
    (map cmd_dc (generate_all_commands set_order parser username password use_domain_prefix))
  = List.filter (same_domain k) (domain_controllers parser).
Proof.
  unfold generate_all_commands. rewrite commands_records.
  by destruct (grouping_invariant (domain_controllers parser)) as (_ & _ & _ & Hf).
Qed.

(** X18. Every command is the one [generate_command] renders for its
    record, under the record's domain (["UNKNOWN"] when it has none) and
    with the NetBIOS name chosen for all records of that domain. *)
Theorem command_fields
    (set_order : gset str -> list str) (parser : NmapParser)
    (username password : str) (use_domain_prefix : bool) (c : Command) :
  c ∈ generate_all_commands set_order parser username password use_domain_prefix ->
  cmd_dc c ∈ domain_controllers parser
  /\ cmd_domain c = domain_or_unknown (cmd_dc c)
  /\ cmd_command c =
       generate_command (cmd_dc c) username password (cmd_domain c)
         use_domain_prefix (cmd_netbios c)
  /\ cmd_netbios c =
       group_netbios set_order parser
         (List.filter (same_domain (cmd_domain c)) (domain_controllers parser)).
Proof. apply command_inv. Qed.

(** X19. Two commands for the same domain carry the same NetBIOS name. *)
Theorem commands_same_domain_same_netbios
    (set_order : gset str -> list str) (parser : NmapParser)
    (username password : str) (use_domain_prefix : bool) (c1 c2 : Command) :
  c1 ∈ generate_all_commands set_order parser username password use_domain_prefix ->
  c2 ∈ generate_all_commands set_order parser username password use_domain_prefix ->
  cmd_domain c1 = cmd_domain c2 -> cmd_netbios c1 = cmd_netbios c2.
Proof.
  intros H1 H2 Hd.
  apply command_inv in H1 as (_ & _ & _ & ->).
  apply command_inv in H2 as (_ & _ & _ & ->). by rewrite Hd.
Qed.

(** X20. A NetBIOS name found on a record of the domain wins: when some
    record of a command's domain has a non-empty [netbios], the command
    carries that of the first such record, whatever the parser's set of
    names holds. *)
Theorem command_netbios_from_domain_first
    (set_order : gset str -> list str) (parser : NmapParser)
    (username password : str) (use_domain_prefix : bool) (c : Command) (n : str) :
  c ∈ generate_all_commands set_order parser username password use_domain_prefix ->
  first_netbios (List.filter (same_domain (cmd_domain c)) (domain_controllers parser))
    = Some n ->
  cmd_netbios c = Some n.
Proof.
  intros H Hn. apply command_inv in H as (_ & _ & _ & ->).
  by apply group_netbios_first.
Qed.

(** X21. The NetBIOS name of a command is never made up: it is the
    [netbios] of a record of the same domain, or, as long as iterating over
    a set only yields its elements, a name of the parser's set. *)
Theorem command_netbios_provenance
    (set_order : gset str -> list str) (parser : NmapParser)
    (username password : str) (use_domain_prefix : bool) (c : Command) (n : str) :
  (forall x, x ∈ set_order (netbios_domains parser) -> x ∈ netbios_domains parser) ->
  c ∈ generate_all_commands set_order parser username password use_domain_prefix ->
  cmd_netbios c = Some n ->
  n ∈ netbios_domains parser
  \/ exists dc, dc ∈ domain_controllers parser
                /\ domain_or_unknown dc = cmd_domain c /\ netbios dc = Some n.
Proof.
  intros Hso H Hn. apply command_inv in H as (_ & _ & _ & Hg).
  rewrite Hn in Hg. symmetry in Hg.
  apply group_netbios_Some in Hg as [Hf|Hs]; [right | left; by apply Hso].
  apply first_netbios_Some in Hf as (_ & dc & Hin & Hd).
  apply list_elem_of_In, filter_In in Hin as [Hin Hsame].
  exists dc. split; [by apply list_elem_of_In|]. split; [|done].
  unfold same_domain in Hsame. by apply bool_decide_eq_true in Hsame.
Qed.

Lemma command_fields_witness :
  sample_command1 ∈ generate_all_commands elements sample_parser s{"bob"} s{"pw"} true
  /\ cmd_domain sample_command1 = domain_or_unknown (cmd_dc sample_command1).
Proof.
  assert (H : sample_command1 ∈
              generate_all_commands elements sample_parser s{"bob"} s{"pw"} true).
  { apply list_elem_of_In. vm_compute. left. reflexivity. }
  split; [exact H|].
  exact (proj1 (proj2 (command_fields _ _ _ _ _ _ H))).
Defined.

Lemma commands_same_domain_same_netbios_witness :
  cmd_netbios sample_command1 = cmd_netbios sample_command3.
Proof.
  apply (commands_same_domain_same_netbios elements sample_parser s{"bob"} s{"pw"} true).
  - apply list_elem_of_In. vm_compute. left. reflexivity.
  - apply list_elem_of_In. vm_compute. right. left. reflexivity.
  - reflexivity.
Defined.

Lemma command_netbios_from_domain_first_witness :
  cmd_netbios sample_command1 = Some s{"CORP"}.
Proof.
  apply (command_netbios_from_domain_first elements sample_parser s{"bob"} s{"pw"} true).
  - apply list_elem_of_In. vm_compute. left. reflexivity.
  - vm_compute. reflexivity.
Defined.

Lemma command_netbios_provenance_witness :
  s{"CORP"} ∈ netbios_domains sample_parser
  \/ exists dc, dc ∈ domain_controllers sample_parser
                /\ domain_or_unknown dc = cmd_domain sample_command1
                /\ netbios dc = Some s{"CORP"}.
Proof.
  apply (command_netbios_provenance elements sample_parser s{"bob"} s{"pw"} true
           sample_command1).
  - intros x Hx. by apply elem_of_elements in Hx.
  - apply list_elem_of_In. vm_compute. left. reflexivity.
  - reflexivity.
Defined.

(* ===================================================================== *)
(** ** From the report to the commands *)
(* ===================================================================== *)

Lemma parse_init_spec (content : str) :
  let parser := fst (parse (Returns content) init) in
  domain_controllers parser = omap record_of (blocks_of content)
  /\ (forall d, d ∈ domain_names parser <->
                d ∈ names_of domain (domain_controllers parser))
  /\ (forall d, d ∈ netbios_domains parser <->
                d ∈ names_of netbios (domain_controllers parser)).
Proof.
  unfold parse, parse_with. cbn [fst].
  destruct (parse_loop_records (tail (split marker content)) 1
              (set_total_hosts (Z.of_nat (length (split marker content)) - 1) init))
    as (H1 & _ & _ & H4 & H5).
  cbv zeta. cbn [domain_controllers set_total_hosts init app] in H1.
  fold (blocks_of content) in *. rewrite H1.
  split; [done|]. split; intros d; [rewrite H4 | rewrite H5];
    cbn [domain_names netbios_domains set_total_hosts init];
    (split; [intros [H|H]; [by apply elem_of_empty in H | done] | by right]).
Qed.

(** X22. From a report to its commands, starting with a fresh parser:
    every command belongs to the record of a host block of the report;
    its domain is ["UNKNOWN"] or one of the parser's [domain_names]; and,
    as long as iterating over a set only yields its elements, its NetBIOS
    name is one of the parser's [netbios_domains]. *)
Theorem run_commands_names
    (set_order : gset str -> list str) (content username password : str)
    (use_domain_prefix : bool) (c : Command) :
  let parser := fst (parse (Returns content) init) in
  (forall x, x ∈ set_order (netbios_domains parser) -> x ∈ netbios_domains parser) ->
  c ∈ generate_all_commands set_order parser username password use_domain_prefix ->
  (exists host_block, host_block ∈ blocks_of content
                      /\ record_of host_block = Some (cmd_dc c))
  /\ (cmd_domain c = s{"UNKNOWN"} \/ cmd_domain c ∈ domain_names parser)
  /\ (forall n, cmd_netbios c = Some n -> n ∈ netbios_domains parser).
Proof.
  intros parser Hso Hc.
  destruct (parse_init_spec content) as (Hd & Hn1 & Hn2). fold parser in Hd, Hn1, Hn2.
  pose proof (command_inv set_order parser username password use_domain_prefix c Hc)
    as (Hin & Hdom & _ & Hg).
  split; [|split].
  - rewrite Hd in Hin. apply list_elem_of_omap in Hin as (b & ? & ?). by exists b.
  - rewrite Hdom. unfold domain_or_unknown.
    destruct (truthy (domain (cmd_dc c))) eqn:T; [right | by left].
    apply Hn1, elem_of_names_of. exists (cmd_dc c).
    destruct (domain (cmd_dc c)) as [[|x d]|]; try done.
  - intros n Hn. rewrite Hn in Hg. symmetry in Hg.
    apply group_netbios_Some in Hg as [Hf|Hs]; [|by apply Hso].
    apply first_netbios_Some in Hf as (Hne & dc & Hdc & Hnb).
    apply list_elem_of_In, filter_In in Hdc as [Hdc _].
    apply Hn2, elem_of_names_of. exists dc. by rewrite list_elem_of_In.
Qed.

Lemma run_commands_names_witness :
  cmd_domain sample_named_command ∈ domain_names (fst (parse (Returns sample_report) init))
  /\ s{"CORP"} ∈ netbios_domains (fst (parse (Returns sample_report) init)).
Proof.
  pose proof (run_commands_names elements sample_report s{"bob"} s{"pw"} true
                sample_named_command
                (fun x Hx => proj1 (elem_of_elements _ x) Hx)
                ltac:(apply list_elem_of_In; vm_compute; left; reflexivity))
    as (_ & [H|H] & Hn).
  - by vm_compute in H.
  - split; [exact H | by apply Hn].
Defined.

(* ===================================================================== *)
(** ** The matcher finds what there is to find *)
(* ===================================================================== *)

Section Complete.

Implicit Types (s t kw : str) (p : ascii -> bool) (r : regex) (g : option str).

Lemma star_keeps p s (k : str -> option result) : k s <> None -> star p s k <> None.
Proof.
  destruct s as [|c s]; [done|]. cbn [star]. intros H.
  destruct (p c); [|done]. by destruct (star p s k).
Qed.

Lemma star_complete p t s' (k : str -> option result) :
  forallb p t = true -> k s' <> None -> star p (t ++ s') k <> None.
Proof.
  induction t as [|c t IH]; intros Hp Hk; [by apply star_keeps|].
  simpl in Hp. apply andb_true_iff in Hp as [Hc Hp].
  cbn [app star]. rewrite Hc.
  specialize (IH Hp Hk). by destruct (star p (t ++ s') k).
Qed.

(** Completeness: a text the pattern denotes, before a rest the
    continuation accepts, is not turned down. *)
Lemma rmatch_complete n r : forall t s' g g' (k : cont),
  bol_free r -> denotes r t g g' -> k s' g' <> None -> rmatch n r (t ++ s') g k <> None.
Proof.
  induction r as [p|p|p|r1 IH1 r2 IH2|r0 IH0|]; intros t s' g g' k Hb D Hk;
    cbn [denotes bol_free rmatch] in *.
  - destruct D as [(c & -> & Hc) ->]. cbn [app]. by rewrite Hc.
  - destruct D as [Hp ->]. by apply star_complete.
  - destruct D as (Hne & Hp & ->). destruct t as [|c t]; [done|].
    simpl in Hp. apply andb_true_iff in Hp as [Hc Hp]. cbn [app]. rewrite Hc.
    by apply star_complete.
  - destruct D as (t1 & t2 & g1 & -> & D1 & D2). destruct Hb as [Hb1 Hb2].
    rewrite <- app_assoc. apply (IH1 t1 (t2 ++ s') g g1); [done | done |].
    by apply (IH2 t2 s' g1 g').
  - destruct D as [[g0 D] ->]. apply (IH0 t s' g g0); [done | done |].
    by rewrite length_app, Nat.add_sub, take_app_length.
  - done.
Qed.

Lemma search_from_complete n r (pre s : str) :
  rmatch n r s None accept <> None -> search_from n r (pre ++ s) <> None.
Proof.
  intros H. induction pre as [|c pre IH].
  - destruct s; cbn [app search_from]; by destruct (rmatch n r _ None accept).
  - cbn [app search_from]. by destruct (rmatch n r (c :: pre ++ s) None accept).
Qed.

(** Where a text the pattern denotes occurs in the subject, [re.search]
    finds a match. *)
Lemma search_complete r (pre t post : str) g' :
  bol_free r -> denotes r t None g' -> search r (pre ++ t ++ post) <> None.
Proof.
  intros Hb D. apply search_from_complete.
  by apply (rmatch_complete _ r t post None g').
Qed.

Lemma denotes_lits_any_group ic kw : forall t g g' h,
  denotes (lits ic kw) t g g' -> denotes (lits ic kw) t h h.
Proof.
  induction kw as [|c kw IH]; intros t g g' h D.
  - cbn in *. by destruct D as [? _].
  - destruct kw as [|c' kw].
    + cbn [lits] in *. unfold lit in *. destruct ic; cbn in *; by destruct D as [? _].
    + cbn [lits denotes] in *.
      destruct D as (t1 & t2 & g1 & -> & D1 & D2).
      exists t1, t2, h. split; [done|]. split; [|by apply (IH _ g1 g')].
      unfold lit in *. destruct ic; cbn in *; by destruct D1 as [? _].
Qed.

Lemma hyphen_class_in_dot_class (c : ascii) :
  alnum_or s{"-"} c = true -> alnum_or s{"-."} c = true.
Proof. destruct c as [[] [] [] [] [] [] [] []]; vm_compute; congruence. Qed.

End Complete.

(** X23. A block with a [NetBIOS ... Domain:] label always has a domain,
    and Method 1 gives it: the [Domain:] pattern matches wherever that
    label does. *)
Theorem netbios_label_gives_domain (block : str) (m : result) :
  search Pat.netbios block = Some m ->
  exists d, domain_method1 block = Some d /\ _extract_domain block = Some d.
Proof.
  intros H. apply search_sound in H as (pre & t & -> & D).
  unfold Pat.netbios in D. cbn [denotes] in D.
  destruct D as (t1 & r1 & g1 & -> & _ & D).
  destruct D as (t2 & r2 & g2 & -> & _ & D).
  destruct D as (t3 & r3 & g3 & -> & D3 & D).
  destruct D as (t4 & t5 & g4 & -> & (H4 & _) & [(g5 & H5 & H5' & _) Hg]).
  assert (Hs : search Pat.domain (pre ++ (t1 ++ t2 ++ t3 ++ t4 ++ t5) ++ fst m) <> None).
  { replace (pre ++ (t1 ++ t2 ++ t3 ++ t4 ++ t5) ++ fst m)
      with ((pre ++ t1 ++ t2) ++ (t3 ++ t4 ++ t5) ++ fst m)
      by (by rewrite <- !app_assoc).
    apply (search_complete Pat.domain _ _ _ (Some t5)); [cbn; tauto|].
    unfold Pat.domain. cbn [denotes].
    exists t3, (t4 ++ t5), None. split; [done|].
    split; [by apply (denotes_lits_any_group _ _ _ g2 g3)|].
    exists t4, t5, None. split; [done|]. split; [done|].
    split; [|done]. exists None. split; [done|]. split; [|done].
    revert H5'. apply forallb_impl, hyphen_class_in_dot_class. }
  unfold _extract_domain, domain_method1.
  destruct (search Pat.domain _) as [m'|]; [|done]. by eexists.
Qed.

Lemma netbios_label_gives_domain_witness :
  exists d, domain_method1 (s{"|   NetBIOS Domain: corp"} ++ nl) = Some d
            /\ _extract_domain (s{"|   NetBIOS Domain: corp"} ++ nl) = Some d.
Proof.
  apply (netbios_label_gives_domain _ (nl, Some s{"corp"})).
  vm_compute. reflexivity.
Defined.

Lemma commands_domains
    (set_order : gset str -> list str) (parser : NmapParser)
    (username password : str) (use_domain_prefix : bool)
    (m : list (str * list DomainController)) :
  map cmd_domain
    (concat (map (group_commands set_order parser username password use_domain_prefix) m))
  = concat (map (fun e => replicate (length (snd e)) (fst e)) m).
Proof.
  induction m as [|[k l] m IH]; [done|].
  cbn [map concat fst snd]. rewrite map_app, IH. f_equal.
  unfold group_commands. rewrite map_map. cbn [cmd_domain].
  clear. induction l as [|dc l IHl]; [done|]. cbn. by rewrite IHl.
Qed.

(** X24. The commands come grouped by domain: their domains are runs of
    equal names, and no name has two runs. *)
Theorem commands_grouped_by_domain
    (set_order : gset str -> list str) (parser : NmapParser)
    (username password : str) (use_domain_prefix : bool) :
  exists runs : list (str * nat),
    NoDup runs.*1
    /\ map cmd_domain
         (generate_all_commands set_order parser username password use_domain_prefix)
       = concat (map (fun run => replicate (snd run) (fst run)) runs).
Proof.
  exists (map (fun e => (fst e, length (snd e)))
            (fold_left group_step (domain_controllers parser) [])).
  destruct (grouping_invariant (domain_controllers parser)) as (_ & Hnd & _ & _).
  split.
  - replace ((map _ _).*1) with ((fold_left group_step (domain_controllers parser) []).*1);
      [done|].
    generalize (fold_left group_step (domain_controllers parser) []).
    intros m. induction m as [|[k l] m IH]; [done|]. cbn. by rewrite IH.
  - unfold generate_all_commands. rewrite commands_domains. by rewrite map_map.
Qed.

(** X25. Method 2 never joins anything: whenever it returns a domain,
    [findall] found exactly one [DC=] component in the captured value, and
    the domain is that component, without comma or line break. *)
Theorem method2_returns_one_component (block d : str) :
  domain_method2 block = Some d ->
  (exists m, search Pat.naming_context block = Some m
             /\ findall Pat.dc_part (strip (group1 m)) = [d])
  /\ forallb (none_of (nl ++ s{","})) d = true.
Proof.
  intros H. split; [by apply naming_context_single_component|].
  pose proof (method2_no_newline _ _ H) as Hnl.
  destruct (naming_context_single_component _ _ H) as (m & E & F).
  assert (Hc : forallb (none_of s{","}) d = true).
  { apply (findall_from_forallb (none_of s{","}) (none_of s{","}) Pat.dc_part
             (length (strip (group1 m))) (strip (group1 m)) 0%nat d eq_refl).
    - apply forallb_strip. by apply (naming_context_group_no_comma block).
    - fold (findall Pat.dc_part (strip (group1 m))). rewrite F.
      by apply list_elem_of_singleton. }
  rewrite forallb_forall in *. intros c Hin.
  specialize (Hnl c Hin). specialize (Hc c Hin).
  unfold none_of in *. rewrite existsb_app, negb_orb. by rewrite Hnl, Hc.
Qed.

Lemma method2_returns_one_component_witness :
  forallb (none_of (nl ++ s{","})) s{"corp"} = true.
Proof.
  apply (proj2 (method2_returns_one_component sample_naming_context_block s{"corp"}
                  ltac:(vm_compute; reflexivity))).
Defined.
